(** * Spikra SmartAgent: a shallow embedding of [app.py]

    The service reads lead records from a CSV file, classifies each lead as
    Hot, Warm or Cold, optionally drafts a follow-up and summarises the
    ticket, and returns the per-lead results with run statistics.

    Conventions of the embedding.
    - A Python [str] is a [string]; its characters are read as the code
      points U+0000..U+00FF, and [isspace], [lower] and [capitalize] follow
      CPython on that range.
    - A CSV cell is a [pyval]: [csv.DictReader] yields a [str], or [None]
      for a cell missing from a short row.
    - A [csv.DictReader] row is a finite map from column names to cells.
    - [time.time], the chat-completion client and the file system are the
      environment ([world]); the number of calls made so far is the state.
    - Exceptions are values of [exn]; code that may raise lives in the
      monad [M].
    - Float arithmetic, [round] and [traceback.format_exc] are the
      interface [Runtime]. *)

From Stdlib Require Import Ascii String List ZArith QArith Lia Bool.
From stdpp Require Import base gmap strings.
Import ListNotations.

Close Scope Q_scope.
Open Scope nat_scope.

(** String concatenation computes under [simpl], as the list one does. *)
Arguments String.append !_ _ / : simpl nomatch.

(** ** Python string primitives *)

Module PyStr.

(** [str.isspace] of one character. *)
Definition isspace (c : ascii) : bool :=
  let n := nat_of_ascii c in
  ((9 <=? n) && (n <=? 13)) || ((28 <=? n) && (n <=? 32))
  || (n =? 133) || (n =? 160).

(** [str.lower] of one character. *)
Definition lower_char (c : ascii) : ascii :=
  let n := nat_of_ascii c in
  if ((65 <=? n) && (n <=? 90)) || ((192 <=? n) && (n <=? 214))
     || ((216 <=? n) && (n <=? 222))
  then ascii_of_nat (n + 32) else c.

(** [s.lower()] *)
Fixpoint lower (s : string) : string :=
  match s with
  | EmptyString => EmptyString
  | String c r => String (lower_char c) (lower r)
  end.

(** Title case of one character, as [capitalize] applies it to the first
    character.  U+00DF becomes the two characters [Ss].  The title-case
    forms of U+00B5 and U+00FF are U+039C and U+0178, which lie outside the
    alphabet: the model leaves these two characters unchanged. *)
Definition title_char (c : ascii) : string :=
  let n := nat_of_ascii c in
  if ((97 <=? n) && (n <=? 122)) || ((224 <=? n) && (n <=? 246))
     || ((248 <=? n) && (n <=? 254))
  then String (ascii_of_nat (n - 32)) EmptyString
  else if n =? 223 then "Ss"%string
  else String c EmptyString.

(** [s.capitalize()] *)
Definition capitalize (s : string) : string :=
  match s with
  | EmptyString => EmptyString
  | String c r => String.append (title_char c) (lower r)
  end.

(** [s.lstrip()] *)
Fixpoint lstrip (s : string) : string :=
  match s with
  | EmptyString => EmptyString
  | String c r => if isspace c then lstrip r else s
  end.

(** [s.rstrip()] *)
Fixpoint rstrip (s : string) : string :=
  match s with
  | EmptyString => EmptyString
  | String c r =>
      match rstrip r with
      | EmptyString => if isspace c then EmptyString else String c EmptyString
      | r' => String c r'
      end
  end.

(** [s.strip()] *)
Definition strip (s : string) : string := rstrip (lstrip s).

(** [s.split()]: the maximal runs of non-whitespace characters.  [w] is
    the word being read, if any. *)
Fixpoint split_from (w : option string) (s : string) : list string :=
  match s with
  | EmptyString => match w with Some x => [x] | None => [] end
  | String c r =>
      if isspace c then
        match w with
        | Some x => x :: split_from None r
        | None => split_from None r
        end
      else
        split_from
          (Some (String.append (default EmptyString w) (String c EmptyString))) r
  end.

Definition split (s : string) : list string := split_from None s.

(** [p in s] for two strings. *)
Fixpoint contains (p s : string) : bool :=
  if String.prefix p s then true
  else match s with
       | EmptyString => false
       | String _ r => contains p r
       end.

(** [s[:n]] *)
Fixpoint slice_to (n : nat) (s : string) : string :=
  match n, s with
  | S n', String c r => String c (slice_to n' r)
  | _, _ => EmptyString
  end.

(** Truth value of a string: [bool(s)]. *)
Definition truthy (s : string) : bool :=
  match s with EmptyString => false | _ => true end.

(** [x in (a, b, ...)] for strings. *)
Definition in_tuple (x : string) (t : list string) : bool :=
  existsb (String.eqb x) t.

End PyStr.

(** ** Data model *)

(** A cell of a [csv.DictReader] row. *)
Inductive pyval :=
| VStr (s : string)
| VNone.

(** [str(v)], also the rendering of [v] inside an f-string. *)
Definition py_str (v : pyval) : string :=
  match v with
  | VStr s => s
  | VNone => "None"%string
  end.

(** A row as [csv.DictReader] yields it. *)
Abbreviation row := (gmap string pyval).

(** [row.get(k, "")] *)
Definition row_get (r : row) (k : string) : pyval :=
  default (VStr EmptyString) (r !! k).

(** The [lead] dictionary built in [run_agent]: always these six keys. *)
Record lead := {
  id_ : pyval;
  name : pyval;
  email : pyval;
  company : pyval;
  interest : pyval;
  ticket : pyval
}.

Definition mk_lead (r : row) : lead :=
  {| id_ := row_get r "id";
     name := row_get r "name";
     email := row_get r "email";
     company := row_get r "company";
     interest := row_get r "interest";
     ticket := row_get r "ticket" |}.

(** Exceptions that reach the [except Exception] clause or leave the
    handler. *)
Inductive exn :=
| OSError (msg : string)
| IndexError (msg : string)
| AttributeError (msg : string)
| APIError (msg : string).

(** [str(e)] *)
Definition exn_str (e : exn) : string :=
  match e with
  | OSError m | IndexError m | AttributeError m | APIError m => m
  end.

(** [class RunRequest(BaseModel)] *)
Record RunRequest := { csv_path : string }.

Definition default_request : RunRequest :=
  {| csv_path := "data/sample_leads.csv" |}.

(** Module-level configuration read from the environment at import. *)
Record config := {
  USE_OPENAI : bool;
  OPENAI_MODEL : string
}.

(** ** Prompts *)

Definition nl : string := String (ascii_of_nat 10) EmptyString.

Definition fstring (parts : list string) : string :=
  String.concat EmptyString parts.

Definition classify_prompt (l : lead) : string :=
  fstring
    [ "You are a CRM assistant. Based on these fields, classify the lead into exactly one word: Hot, Warm, or Cold."; nl;
      "Name: "; py_str (name l); nl;
      "Company: "; py_str (company l); nl;
      "Interest: "; py_str (interest l); nl;
      "Ticket: "; py_str (ticket l); nl;
      nl;
      "Output only one word: Hot or Warm or Cold."; nl ]%string.

Definition followup_prompt (l : lead) : string :=
  fstring
    [ "Write a short (2-3 sentence) personalized follow-up email for ";
      py_str (name l); " at "; py_str (company l);
      " based on interest level: "; py_str (interest l);
      ". Keep it friendly and mention the company's name once." ]%string.

Definition summarize_prompt (l : lead) : string :=
  fstring
    [ "Summarize the customer ticket in one short sentence."; nl;
      "Ticket: "; py_str (ticket l) ]%string.

(** ** Mock implementations *)

Definition mock_classify (l : lead) : string :=
  let it := PyStr.lower (py_str (interest l)) in
  if PyStr.contains "high" it then "Hot"%string
  else if PyStr.contains "medium" it || PyStr.contains "med" it then "Warm"%string
  else "Cold"%string.

Definition mock_followup (l : lead) : string :=
  fstring
    [ "Hi "; py_str (name l); ", thanks for your interest in ";
      py_str (company l);
      ". I'd be happy to schedule a quick call to discuss next steps." ]%string.

Definition mock_summarize (l : lead) : string :=
  let t := PyStr.strip (py_str (ticket l)) in
  if PyStr.truthy t then
    String.append (PyStr.slice_to 120 t)
      (if 120 <? String.length t then "..."%string else EmptyString)
  else EmptyString.

(** ** Environment and effects *)

(** Arguments of [client.chat.completions.create]: one user message. *)
Record request := {
  model : string;
  content : string;
  temperature : Q;
  max_tokens : Z
}.

(** What a call to the client does: it raises, or returns a response whose
    [choices] carry a message content each ([str] or [None]). *)
Inductive completion :=
| Raises (e : exn)
| Returns (choices : list pyval).

(** What [csv_path] names. *)
Inductive fsentry :=
| Missing
| Unopenable (e : exn)
| Csv (rows : list row).

(** The environment of one process; [time_time k] and [create k] answer the
    call number [k] (counted from 0). *)
Record world (float : Type) := {
  fs : string -> fsentry;
  time_time : nat -> float;
  create : nat -> request -> completion
}.
Arguments fs {float}.
Arguments time_time {float}.
Arguments create {float}.

(** Calls made so far. *)
Record st := { ticks : nat; calls : nat }.

(** Float arithmetic, [round(x, 3)] and [traceback.format_exc()]. *)
Class Runtime (float : Type) := {
  fzero : float;
  fadd : float -> float -> float;
  fsub : float -> float -> float;
  fdiv_int : float -> nat -> float;
  round3 : float -> float;
  format_exc : exn -> string
}.

(** Computations that read the clock, call the client and may raise. *)
Definition M (A : Type) : Type := st -> (exn + A) * st.

Definition ret {A} (a : A) : M A := fun s => (inr a, s).

Definition raise {A} (e : exn) : M A := fun s => (inl e, s).

Definition bind {A B} (m : M A) (k : A -> M B) : M B :=
  fun s =>
    match m s with
    | (inl e, s') => (inl e, s')
    | (inr a, s') => k a s'
    end.

Declare Scope py_scope.
Delimit Scope py_scope with py.
Notation "x <- m ;; k" := (bind m (fun x => k))
  (at level 100, m at next level, right associativity) : py_scope.

(** [l[0]] *)
Definition index0 {A} (l : list A) : M A :=
  match l with
  | [] => raise (IndexError "list index out of range")
  | x :: _ => ret x
  end.

(** [v.strip()] *)
Definition method_strip (v : pyval) : M string :=
  match v with
  | VStr s => ret (PyStr.strip s)
  | VNone => raise (AttributeError "'NoneType' object has no attribute 'strip'")
  end.

(** A record of one lead: the [item] dictionary after [item.update]. *)
Inductive item (float : Type) :=
| ItemOk (l : lead) (category followup ticket_summary : string)
         (latency_sec : float)
| ItemErr (l : lead) (error trace : string).
Arguments ItemOk {float}.
Arguments ItemErr {float}.

(** The value of [round(x, 3)]: [int] for an [int] argument. *)
Inductive pynum (float : Type) :=
| PyInt (z : Z)
| PyFloat (f : float).
Arguments PyInt {float}.
Arguments PyFloat {float}.

(** The [status] dictionary. *)
Record status (float : Type) := {
  processed : nat;
  errors : nat;
  avg_latency_sec : pynum float;
  total_time_sec : float
}.
Arguments processed {float}.
Arguments errors {float}.
Arguments avg_latency_sec {float}.
Arguments total_time_sec {float}.

(** What the [/run] handler does: raise [HTTPException], let another
    exception escape, or return the response body. *)
Inductive response (float : Type) :=
| HTTPException (status_code : Z) (detail : string)
| Escapes (e : exn)
| Body (s : status float) (results : list (item float)).
Arguments HTTPException {float}.
Arguments Escapes {float}.
Arguments Body {float}.

(** The local variables of the loop in [run_agent]. *)
Record locals (float : Type) := {
  results : list (item float);
  n_processed : nat;
  n_errors : nat;
  total_latency : float
}.
Arguments results {float}.
Arguments n_processed {float}.
Arguments n_errors {float}.
Arguments total_latency {float}.

Section Service.

Context {float : Type} {R : Runtime float}.
Variable cfg : config.
Variable w : world float.

Local Open Scope py_scope.

(** [time.time()] *)
Definition now : st -> float * st :=
  fun s => (time_time w (ticks s), {| ticks := S (ticks s); calls := calls s |}).

Definition time_ : M float :=
  fun s => let (t, s') := now s in (inr t, s').

(** [client.chat.completions.create(...)], down to [resp.choices]. *)
Definition chat (rq : request) : M (list pyval) :=
  fun s =>
    let s' := {| ticks := ticks s; calls := S (calls s) |} in
    match create w (calls s) rq with
    | Raises e => (inl e, s')
    | Returns ch => (inr ch, s')
    end.

(** ** OpenAI wrapper *)

Definition openai_classify (l : lead) : M string :=
  let prompt := classify_prompt l in
  choices <- chat {| model := OPENAI_MODEL cfg; content := prompt;
                     temperature := 0%Q; max_tokens := 6%Z |} ;;
  c <- index0 choices ;;
  stripped <- method_strip c ;;
  word <- index0 (PyStr.split stripped) ;;
  let text := PyStr.capitalize word in
  if PyStr.in_tuple text ["Hot"; "Warm"; "Cold"]%string then ret text
  else ret (mock_classify l).

Definition openai_followup (l : lead) : M string :=
  let prompt := followup_prompt l in
  choices <- chat {| model := OPENAI_MODEL cfg; content := prompt;
                     temperature := (3 # 10)%Q; max_tokens := 150%Z |} ;;
  c <- index0 choices ;;
  method_strip c.

Definition openai_summarize (l : lead) : M string :=
  let prompt := summarize_prompt l in
  choices <- chat {| model := OPENAI_MODEL cfg; content := prompt;
                     temperature := 0%Q; max_tokens := 60%Z |} ;;
  c <- index0 choices ;;
  method_strip c.

(** ** Main processing *)

(** The three strategy calls of the [try] block. *)
Definition strategy (l : lead) : M (string * string * string) :=
  if USE_OPENAI cfg then
    category <- openai_classify l ;;
    followup <- (if PyStr.in_tuple category ["Hot"; "Warm"]%string
                 then openai_followup l else ret EmptyString) ;;
    t <- method_strip (ticket l) ;;
    ticket_summary <- (if PyStr.truthy t then openai_summarize l
                       else ret EmptyString) ;;
    ret (category, followup, ticket_summary)
  else
    let category := mock_classify l in
    let followup := if PyStr.in_tuple category ["Hot"; "Warm"]%string
                    then mock_followup l else EmptyString in
    let ticket_summary := mock_summarize l in
    ret (category, followup, ticket_summary).

(** The body of the [try] block, up to the latency measurement. *)
Definition try_body (l : lead) (t0 : float)
  : M (string * string * string * float) :=
  out <- strategy l ;;
  t1 <- time_ ;;
  let '(category, followup, ticket_summary) := out in
  ret (category, followup, ticket_summary, fsub t1 t0).

(** One iteration of [for row in reader]; the [match] on the outcome of
    [try_body] is the [try ... except Exception as e]. *)
Definition process_row (r : row) (v : locals float) : st -> locals float * st :=
  fun s =>
    let l := mk_lead r in
    let (t0, s1) := now s in
    match try_body l t0 s1 with
    | (inr (category, followup, ticket_summary, latency), s2) =>
        ({| results := results v ++
              [ItemOk l category followup ticket_summary (round3 latency)];
            n_processed := n_processed v + 1;
            n_errors := n_errors v;
            total_latency := fadd (total_latency v) latency |}, s2)
    | (inl e, s2) =>
        ({| results := results v ++ [ItemErr l (exn_str e) (format_exc e)];
            n_processed := n_processed v;
            n_errors := n_errors v + 1;
            total_latency := total_latency v |}, s2)
    end.

Fixpoint loop (rows : list row) (v : locals float) : st -> locals float * st :=
  fun s =>
    match rows with
    | [] => (v, s)
    | r :: rest => let (v', s') := process_row r v s in loop rest v' s'
    end.

Definition run_agent (req : RunRequest) : st -> response float * st :=
  fun s =>
    let csv_path := csv_path req in
    match fs w csv_path with
    | Missing =>
        (HTTPException 400 (String.append "CSV not found: " csv_path), s)
    | Unopenable e =>
        let (start_total, s1) := now s in
        (Escapes e, s1)
    | Csv rows =>
        let v0 := {| results := []; n_processed := 0; n_errors := 0;
                     total_latency := fzero |} in
        let (start_total, s1) := now s in
        let (v, s2) := loop rows v0 s1 in
        let (t_end, s3) := now s2 in
        (Body {| processed := n_processed v;
                 errors := n_errors v;
                 avg_latency_sec :=
                   if negb (n_processed v =? 0)
                   then PyFloat (round3 (fdiv_int (total_latency v)
                                                  (n_processed v)))
                   else PyInt 0;
                 total_time_sec := round3 (fsub t_end start_total) |}
              (results v), s3)
    end.

End Service.

(** ** A runtime with exact arithmetic

    Times are rationals, [round(x, 3)] rounds half to even at the third
    decimal, and the traceback is reduced to its header and last line.
    It is used to run the service on concrete inputs. *)

Module Exact.

Definition round_half_even (x : Q) : Q :=
  let n := (Qnum x * 1000)%Z in
  let d := Zpos (Qden x) in
  let q := (n / d)%Z in
  let r := (n mod d)%Z in
  let k := match (2 * r ?= d)%Z with
           | Lt => q
           | Gt => (q + 1)%Z
           | Eq => if Z.even q then q else (q + 1)%Z
           end in
  Qred (k # 1000).

Definition exn_name (e : exn) : string :=
  match e with
  | OSError _ => "OSError"
  | IndexError _ => "IndexError"
  | AttributeError _ => "AttributeError"
  | APIError _ => "openai.APIError"
  end%string.

Definition last_line (e : exn) : string :=
  fstring [ "Traceback (most recent call last):"%string; nl;
            exn_name e; ": "%string; exn_str e; nl ].

#[export] Instance runtime : Runtime Q := {|
  fzero := 0%Q;
  fadd := fun a b => Qred (a + b);
  fsub := fun a b => Qred (a - b);
  fdiv_int := fun a n => Qred (a / inject_Z (Z.of_nat n));
  round3 := round_half_even;
  format_exc := last_line
|}.

End Exact.

(** ** Sample inputs *)

Module Sample.

Definition mk_row (i n e c it tk : string) : row :=
  list_to_map [ ("id", VStr i); ("name", VStr n); ("email", VStr e);
                ("company", VStr c); ("interest", VStr it);
                ("ticket", VStr tk) ]%string.

Definition five_rows : list row :=
  [ mk_row "1" "Ana" "ana@acme.io" "Acme" "high value" "";
    mk_row "2" "Bo" "bo@bolt.io" "Bolt" "Medium" "Login page fails";
    mk_row "3" "Cy" "cy@core.io" "Core" "low" "   ";
    mk_row "4" "Di" "di@dune.io" "Dune" "HIGH and medium" "";
    mk_row "5" "Ed" "ed@edge.io" "Edge" "" "Refund please" ]%string.

(** The clock advances by a quarter of a millisecond per reading. *)
Definition clock (k : nat) : Q := (Z.of_nat k # 4000)%Q.

Definition files (rows : list row) (p : string) : fsentry :=
  if String.eqb p "data/sample_leads.csv" then Csv rows else Missing.

(** A service that answers every classification with "warm", every other
    request with a fixed sentence, and fails on the call number [bad]. *)
Definition service (bad : nat) (k : nat) (rq : request) : completion :=
  if k =? bad then Raises (APIError "You exceeded your current quota")
  else if (max_tokens rq =? 6)%Z then Returns [VStr " warm "]
  else Returns [VStr " Thanks for reaching out. "]%string.

(** A service that answers every request with the same text. *)
Definition echo (txt : string) (k : nat) (rq : request) : completion :=
  Returns [VStr txt].

Definition world_of (rows : list row) (svc : nat -> request -> completion)
  : world Q :=
  {| fs := files rows; time_time := clock; create := svc |}.

Definition world5 (bad : nat) : world Q := world_of five_rows (service bad).

Definition offline : config :=
  {| USE_OPENAI := false; OPENAI_MODEL := "gpt-3.5-turbo" |}.

Definition online : config :=
  {| USE_OPENAI := true; OPENAI_MODEL := "gpt-3.5-turbo" |}.

Definition s0 : st := {| ticks := 0; calls := 0 |}.

(** [c * n] *)
Fixpoint replicate (n : nat) (c : ascii) : string :=
  match n with
  | 0 => EmptyString
  | S n' => String c (replicate n' c)
  end.

(** A lead with the given interest and ticket. *)
Definition lead_of (it tk : pyval) : lead :=
  {| id_ := VStr "7"; name := VStr "Ana"; email := VStr "ana@acme.io";
     company := VStr "Acme"; interest := it; ticket := tk |}.

End Sample.

Definition is_ok {float} (it : item float) : bool :=
  match it with ItemOk _ _ _ _ _ => true | ItemErr _ _ _ => false end.

Definition is_err {float} (it : item float) : bool :=
  match it with ItemOk _ _ _ _ _ => false | ItemErr _ _ _ => true end.

Definition item_lead {float} (it : item float) : lead :=
  match it with ItemOk l _ _ _ _ => l | ItemErr l _ _ => l end.

(** ** Vocabulary of the statements *)

(** The request that [openai_classify] sends for a lead. *)
Definition classify_request (cfg : config) (l : lead) : request :=
  {| model := OPENAI_MODEL cfg; content := classify_prompt l;
     temperature := 0%Q; max_tokens := 6%Z |}.

(** The state after one more call to the client. *)
Definition called (s : st) : st :=
  {| ticks := ticks s; calls := S (calls s) |}.

(** The state after one more reading of the clock. *)
Definition ticked (s : st) : st :=
  {| ticks := S (ticks s); calls := calls s |}.

Definition tiers : list string := ["Hot"; "Warm"; "Cold"]%string.

(** How many elements of [l] satisfy [p]. *)
Fixpoint count_if {A} (p : A -> bool) (l : list A) : nat :=
  match l with
  | [] => 0
  | x :: r => (if p x then 1 else 0) + count_if p r
  end.

(** Failure isolation, lead by lead: [per_lead cfg w rows s its s'] holds
    when, starting the loop in state [s], each row in turn yields one
    record, an error record if its strategy calls raise and a success record
    with their three values otherwise, and the next row is processed from
    the state the previous one left. *)
Inductive per_lead {float} {R : Runtime float} (cfg : config) (w : world float)
  : list row -> st -> list (item float) -> st -> Prop :=
| per_lead_done s : per_lead cfg w [] s [] s
| per_lead_ok r rows s c f ts s1 its s' :
    strategy cfg w (mk_lead r) (ticked s) = (inr (c, f, ts), s1) ->
    per_lead cfg w rows (ticked s1) its s' ->
    per_lead cfg w (r :: rows) s
      (ItemOk (mk_lead r) c f ts
         (round3 (fsub (time_time w (ticks s1)) (time_time w (ticks s))))
       :: its) s'
| per_lead_err r rows s e s1 its s' :
    strategy cfg w (mk_lead r) (ticked s) = (inl e, s1) ->
    per_lead cfg w rows s1 its s' ->
    per_lead cfg w (r :: rows) s
      (ItemErr (mk_lead r) (exn_str e) (format_exc e) :: its) s'.

(** Every character is whitespace. *)
Fixpoint all_space (s : string) : bool :=
  match s with
  | EmptyString => true
  | String c r => PyStr.isspace c && all_space r
  end.

(** [p] occurs in [s], up to the case of the letters of [s]. *)
Definition contains_ci (p s : string) : Prop :=
  exists pre mid post, s = pre +:+ mid +:+ post /\ PyStr.lower mid = p.

(** ** Start-up configuration *)

(** [os.getenv(k, d)] over the environment after [load_dotenv()]. *)
Definition getenv (env : gmap string string) (k d : string) : string :=
  default d (env !! k).

(** How the module import ends: [RuntimeError], or the module globals
    [USE_OPENAI], [OPENAI_MODEL] (the [config]) and [OPENAI_API_KEY]. *)
Inductive startup :=
| RuntimeError (msg : string)
| Started (cfg : config) (OPENAI_API_KEY : string).

(** The module-level code of [app.py] down to the client.  [import_openai]
    is how the [try] block around the import and construction of the client
    ends: [None] when it succeeds, the exception when it raises. *)
Definition load (env : gmap string string) (import_openai : option exn)
  : startup :=
  let use_openai :=
    PyStr.in_tuple (PyStr.lower (getenv env "USE_OPENAI" "false"))
      ["1"; "true"; "yes"]%string in
  let api_key := PyStr.strip (getenv env "OPENAI_API_KEY" "") in
  let openai_model := getenv env "OPENAI_MODEL" "gpt-3.5-turbo" in
  let cfg := {| USE_OPENAI := use_openai; OPENAI_MODEL := openai_model |} in
  if use_openai then
    if negb (PyStr.truthy api_key) then
      RuntimeError "USE_OPENAI is true but OPENAI_API_KEY is not set in .env"
    else
      match import_openai with
      | Some e =>
          RuntimeError
            (String.append "Failed to import OpenAI client: " (exn_str e))
      | None => Started cfg api_key
      end
  else Started cfg api_key.

(** ** Further vocabulary *)

(** The columns [run_agent] reads from a row. *)
Definition lead_columns : list string :=
  ["id"; "name"; "email"; "company"; "interest"; "ticket"]%string.

(** The request that [openai_followup] sends for a lead. *)
Definition followup_request (cfg : config) (l : lead) : request :=
  {| model := OPENAI_MODEL cfg; content := followup_prompt l;
     temperature := (3 # 10)%Q; max_tokens := 150%Z |}.

(** The request that [openai_summarize] sends for a lead. *)
Definition summarize_request (cfg : config) (l : lead) : request :=
  {| model := OPENAI_MODEL cfg; content := summarize_prompt l;
     temperature := 0%Q; max_tokens := 60%Z |}.

(** What the two text wrappers make of a completion: the stripped content
    of the first choice, or the exception of the failing step. *)
Definition first_text (c : completion) : exn + string :=
  match c with
  | Raises e => inl e
  | Returns [] => inl (IndexError "list index out of range")
  | Returns (VNone :: _) =>
      inl (AttributeError "'NoneType' object has no attribute 'strip'")
  | Returns (VStr t :: _) => inr (PyStr.strip t)
  end.

(** Whether a category asks for a follow-up: [category in ("Hot", "Warm")]. *)
Definition wants_followup (category : string) : bool :=
  PyStr.in_tuple category ["Hot"; "Warm"]%string.
(** ** Sanity checks of the primitives *)

Example lower_ex : PyStr.lower "High VALUE" = "high value"%string.
Proof. reflexivity. Qed.

Example strip_ex : PyStr.strip "  a b  " = "a b"%string.
Proof. reflexivity. Qed.

Example split_ex : PyStr.split " Hot.  take two " = ["Hot."; "take"; "two"]%string.
Proof. reflexivity. Qed.

Example capitalize_ex : PyStr.capitalize "wARM" = "Warm"%string.
Proof. reflexivity. Qed.

Example contains_ex : PyStr.contains "med" "intermediate" = true.
Proof. reflexivity. Qed.

Example mock_classify_ex :
  mock_classify {| id_ := VStr "1"; name := VStr "Ana"; email := VStr "";
                   company := VStr "Acme"; interest := VStr "high value";
                   ticket := VStr "" |} = "Hot"%string.
Proof. reflexivity. Qed.

Example mock_followup_ex :
  mock_followup {| id_ := VStr "1"; name := VStr "Ana"; email := VStr "";
                   company := VStr "Acme"; interest := VStr "high value";
                   ticket := VStr "" |}
  = "Hi Ana, thanks for your interest in Acme. I'd be happy to schedule a quick call to discuss next steps."%string.
Proof. reflexivity. Qed.

(** ** Facts about the string primitives *)

Section StringFacts.

Import PyStr.

Lemma append_nil_r (s : string) : s +:+ EmptyString = s.
Proof. induction s; simpl; congruence. Qed.

Lemma append_assoc (a b c : string) : (a +:+ b) +:+ c = a +:+ b +:+ c.
Proof. induction a; simpl; congruence. Qed.

Lemma length_append (a b : string) :
  String.length (a +:+ b) = String.length a + String.length b.
Proof. induction a; simpl; lia. Qed.

Lemma prefix_iff (p s : string) :
  String.prefix p s = true <-> exists post, s = p +:+ post.
Proof.
  revert s; induction p as [|a p IH]; intros s; simpl.
  - split; [intros _; exists s; reflexivity | intros _; destruct s; reflexivity].
  - destruct s as [|b s]; simpl.
    + split; [discriminate | intros [post H]; discriminate].
    + destruct (ascii_dec a b) as [->|Hne].
      * rewrite IH. split; intros [post H]; exists post; congruence.
      * split; [discriminate | intros [post H]; congruence].
Qed.

Lemma contains_iff (p s : string) :
  contains p s = true <-> exists pre post, s = pre +:+ p +:+ post.
Proof.
  induction s as [|c s IH]; cbn [contains];
    destruct (String.prefix p _) eqn:E.
  - split; [intros _ | reflexivity].
    apply prefix_iff in E as [post E]. exists EmptyString, post. exact E.
  - split; [discriminate |].
    intros (pre & post & H). destruct pre; simpl in H; [| discriminate].
    assert (String.prefix p EmptyString = true) by (apply prefix_iff; eauto).
    congruence.
  - split; [intros _ | reflexivity].
    apply prefix_iff in E as [post E]. exists EmptyString, post. exact E.
  - rewrite IH. split.
    + intros (pre & post & ->). exists (String c pre), post. reflexivity.
    + intros (pre & post & H). destruct pre as [|c' pre]; simpl in H.
      * assert (String.prefix p (String c s) = true)
          by (apply prefix_iff; eauto).
        congruence.
      * exists pre, post. congruence.
Qed.

Lemma lower_append (a b : string) : lower (a +:+ b) = lower a +:+ lower b.
Proof. induction a; simpl; congruence. Qed.

Lemma lower_append_inv (s a b : string) :
  lower s = a +:+ b ->
  exists s1 s2, s = s1 +:+ s2 /\ lower s1 = a /\ lower s2 = b.
Proof.
  revert s; induction a as [|x a IH]; intros s H; simpl in H.
  - exists EmptyString, s. auto.
  - destruct s as [|c s]; simpl in H; [discriminate |].
    injection H as Hx Hs. apply IH in Hs as (s1 & s2 & -> & H1 & H2).
    exists (String c s1), s2. simpl. repeat split; congruence.
Qed.

(** The test [p in s.lower()] decides occurrence up to case. *)
Lemma contains_lower_iff (p s : string) :
  contains p (lower s) = true <-> contains_ci p s.
Proof.
  rewrite contains_iff. split.
  - intros (pre & post & H).
    apply lower_append_inv in H as (s1 & s23 & -> & H1 & H23).
    apply lower_append_inv in H23 as (s2 & s3 & -> & H2 & H3).
    exists s1, s2, s3. auto.
  - intros (pre & mid & post & -> & H).
    exists (lower pre), (lower post).
    rewrite !lower_append. congruence.
Qed.

Lemma lstrip_all_space (s : string) : all_space s = true -> lstrip s = EmptyString.
Proof.
  induction s as [|c s IH]; simpl; [reflexivity |].
  destruct (isspace c); simpl; [exact IH | discriminate].
Qed.

Lemma rstrip_empty_iff (s : string) :
  rstrip s = EmptyString <-> all_space s = true.
Proof.
  induction s as [|c s IH]; simpl; [tauto |].
  destruct (rstrip s) eqn:E.
  - destruct (isspace c); simpl.
    + split; [intros _; apply IH; reflexivity | reflexivity].
    + split; discriminate.
  - split; [discriminate |].
    intros H. apply andb_true_iff in H as [_ H]. apply IH in H. discriminate.
Qed.

Lemma lstrip_empty_iff (s : string) :
  lstrip s = EmptyString <-> all_space s = true.
Proof.
  split; [| apply lstrip_all_space].
  induction s as [|c s IH]; simpl; [reflexivity |].
  destruct (isspace c); simpl; [exact IH | discriminate].
Qed.

Lemma all_space_append (a b : string) :
  all_space (a +:+ b) = all_space a && all_space b.
Proof.
  induction a as [|c a IH]; simpl; [reflexivity |].
  rewrite IH. apply andb_assoc.
Qed.

(** [lstrip] removes a whitespace prefix. *)
Lemma lstrip_decompose (s : string) :
  exists pre, s = pre +:+ lstrip s /\ all_space pre = true.
Proof.
  induction s as [|c s (pre & IH1 & IH2)]; simpl.
  - exists EmptyString. auto.
  - destruct (isspace c) eqn:E.
    + exists (String c pre). simpl. rewrite E, IH2.
      split; [congruence | reflexivity].
    + exists EmptyString. auto.
Qed.

(** [rstrip] removes a whitespace suffix. *)
Lemma rstrip_decompose (s : string) :
  exists post, s = rstrip s +:+ post /\ all_space post = true.
Proof.
  induction s as [|c s (post & IH1 & IH2)]; simpl.
  - exists EmptyString. auto.
  - destruct (rstrip s) eqn:E.
    + destruct (isspace c) eqn:Ec.
      * exists (String c post). simpl in *. rewrite Ec, IH2.
        split; [congruence | reflexivity].
      * exists post. simpl in *. split; congruence.
    + exists post. simpl in *. split; congruence.
Qed.

(** [strip] removes whitespace around the text and nothing else. *)
Lemma strip_decompose (s : string) :
  exists pre post,
    s = pre +:+ strip s +:+ post /\
    all_space pre = true /\ all_space post = true.
Proof.
  destruct (lstrip_decompose s) as (pre & H1 & H2).
  destruct (rstrip_decompose (lstrip s)) as (post & H3 & H4).
  exists pre, post. unfold strip. rewrite <- H3. auto.
Qed.

Lemma strip_empty_iff (s : string) :
  strip s = EmptyString <-> all_space s = true.
Proof.
  unfold strip. rewrite rstrip_empty_iff. split.
  - intros H. destruct (lstrip_decompose s) as (pre & H1 & H2).
    rewrite H1, all_space_append, H2, H. reflexivity.
  - intros H. apply lstrip_all_space in H. rewrite H. reflexivity.
Qed.

Lemma split_from_some (x s : string) : split_from (Some x) s <> [].
Proof.
  revert x; induction s as [|c s IH]; intros x; simpl; [discriminate |].
  destruct (isspace c); [discriminate | apply IH].
Qed.

Lemma split_nil_iff (s : string) : split s = [] <-> all_space s = true.
Proof.
  unfold split. induction s as [|c s IH]; simpl; [tauto |].
  destruct (isspace c); simpl; [exact IH |].
  split; [intros H; apply split_from_some in H; destruct H | discriminate].
Qed.

Lemma rstrip_all_space_empty (t : string) :
  all_space (rstrip t) = true -> rstrip t = EmptyString.
Proof.
  induction t as [|c t IH]; simpl; [reflexivity |].
  destruct (rstrip t) as [|a r] eqn:Et.
  - destruct (isspace c) eqn:Ec; [reflexivity |].
    simpl. rewrite Ec. discriminate.
  - intros H. simpl in H. apply andb_true_iff in H as [_ H].
    specialize (IH H). discriminate.
Qed.

(** No word is left exactly when the text is whitespace only. *)
Lemma split_strip_nil_iff (s : string) :
  split (strip s) = [] <-> all_space s = true.
Proof.
  rewrite split_nil_iff. split.
  - intros H. apply strip_empty_iff. apply rstrip_all_space_empty. exact H.
  - intros H. apply strip_empty_iff in H. rewrite H. reflexivity.
Qed.

Lemma length_slice_to (n : nat) (s : string) :
  String.length (slice_to n s) <= n.
Proof.
  revert s; induction n as [|n IH]; intros [|c s]; simpl; try lia.
  specialize (IH s). lia.
Qed.

Lemma slice_to_all (n : nat) (s : string) :
  String.length s <= n -> slice_to n s = s.
Proof.
  revert s; induction n as [|n IH]; intros [|c s]; simpl; intros H;
    try reflexivity; try lia.
  rewrite IH by lia. reflexivity.
Qed.

Lemma slice_to_prefix (n : nat) (s : string) :
  exists post, s = slice_to n s +:+ post.
Proof.
  revert s; induction n as [|n IH]; intros s.
  - exists s. destruct s; reflexivity.
  - destruct s as [|c s]; simpl.
    + exists EmptyString. reflexivity.
    + destruct (IH s) as [post H]. exists post. congruence.
Qed.

Lemma in_tuple_iff (x : string) (t : list string) :
  in_tuple x t = true <-> In x t.
Proof.
  unfold in_tuple. rewrite existsb_exists. split.
  - intros (y & Hy & E). apply String.eqb_eq in E. congruence.
  - intros H. exists x. split; [exact H | apply String.eqb_refl].
Qed.

Lemma truthy_iff (s : string) : truthy s = true <-> s <> EmptyString.
Proof. destruct s; simpl; split; congruence. Qed.

End StringFacts.

(** ** The offline strategy *)

Lemma mock_classify_cases (l : lead) :
  mock_classify l = "Hot"%string \/ mock_classify l = "Warm"%string
  \/ mock_classify l = "Cold"%string.
Proof.
  unfold mock_classify.
  destruct (PyStr.contains "high" _); [auto |].
  destruct (_ || _); auto.
Qed.

Lemma mock_followup_nonempty (l : lead) : mock_followup l <> EmptyString.
Proof. unfold mock_followup, fstring. simpl. discriminate. Qed.

(** C3: the offline classifier returns Hot when the interest text contains
    "high" up to case, otherwise Warm when it contains "medium" or "med" up
    to case, and Cold for every other value. *)
Theorem mock_classify_tiers (l : lead) :
  let it := py_str (interest l) in
  (contains_ci "high" it -> mock_classify l = "Hot"%string) /\
  (~ contains_ci "high" it ->
   contains_ci "medium" it \/ contains_ci "med" it ->
   mock_classify l = "Warm"%string) /\
  (~ contains_ci "high" it ->
   ~ contains_ci "medium" it -> ~ contains_ci "med" it ->
   mock_classify l = "Cold"%string).
Proof.
  intros it. unfold mock_classify. fold it.
  rewrite <- !contains_lower_iff.
  destruct (PyStr.contains "high" (PyStr.lower it));
    destruct (PyStr.contains "medium" (PyStr.lower it));
    destruct (PyStr.contains "med" (PyStr.lower it)); simpl;
    repeat split; intros; try reflexivity; try congruence;
    try (exfalso; intuition congruence).
Qed.

Lemma mock_classify_tiers_witness :
  (contains_ci "high" "High value" /\
   mock_classify (Sample.lead_of (VStr "High value") (VStr "")) = "Hot"%string)
  /\
  (~ contains_ci "high" "interMEDiate" /\
   (contains_ci "medium" "interMEDiate" \/ contains_ci "med" "interMEDiate") /\
   mock_classify (Sample.lead_of (VStr "interMEDiate") (VStr "")) = "Warm"%string)
  /\
  (~ contains_ci "high" "low" /\ ~ contains_ci "medium" "low" /\
   ~ contains_ci "med" "low" /\
   mock_classify (Sample.lead_of (VStr "low") (VStr "")) = "Cold"%string).
Proof.
  assert (H1 : contains_ci "high" "High value")
    by (apply contains_lower_iff; reflexivity).
  assert (H2 : ~ contains_ci "high" "interMEDiate")
    by (rewrite <- contains_lower_iff; discriminate).
  assert (H3 : contains_ci "med" "interMEDiate")
    by (apply contains_lower_iff; reflexivity).
  assert (H4 : ~ contains_ci "high" "low")
    by (rewrite <- contains_lower_iff; discriminate).
  assert (H5 : ~ contains_ci "medium" "low")
    by (rewrite <- contains_lower_iff; discriminate).
  assert (H6 : ~ contains_ci "med" "low")
    by (rewrite <- contains_lower_iff; discriminate).
  split; [| split].
  - split; [exact H1 |].
    exact (proj1 (mock_classify_tiers
                    (Sample.lead_of (VStr "High value") (VStr ""))) H1).
  - split; [exact H2 |]. split; [right; exact H3 |].
    exact (proj1 (proj2 (mock_classify_tiers
                           (Sample.lead_of (VStr "interMEDiate") (VStr ""))))
             H2 (or_intror H3)).
  - split; [exact H4 |]. split; [exact H5 |]. split; [exact H6 |].
    exact (proj2 (proj2 (mock_classify_tiers
                           (Sample.lead_of (VStr "low") (VStr ""))))
             H4 H5 H6).
Defined.

(** C10: when the interest text contains both "high" and "medium" (or
    "med") up to case, the offline classifier returns Hot and not Warm. *)
Theorem mock_classify_high_first (l : lead) :
  let it := py_str (interest l) in
  contains_ci "high" it ->
  contains_ci "medium" it \/ contains_ci "med" it ->
  mock_classify l = "Hot"%string /\ mock_classify l <> "Warm"%string.
Proof.
  intros it Hh _. unfold mock_classify. fold it.
  apply contains_lower_iff in Hh. rewrite Hh. split; [reflexivity | discriminate].
Qed.

Lemma mock_classify_high_first_witness :
  contains_ci "high" "HIGH and medium" /\
  (contains_ci "medium" "HIGH and medium" \/ contains_ci "med" "HIGH and medium") /\
  mock_classify (Sample.lead_of (VStr "HIGH and medium") (VStr "")) = "Hot"%string /\
  mock_classify (Sample.lead_of (VStr "HIGH and medium") (VStr "")) <> "Warm"%string.
Proof.
  assert (H1 : contains_ci "high" "HIGH and medium")
    by (apply contains_lower_iff; reflexivity).
  assert (H2 : contains_ci "medium" "HIGH and medium")
    by (apply contains_lower_iff; reflexivity).
  split; [exact H1 |]. split; [left; exact H2 |].
  exact (mock_classify_high_first
           (Sample.lead_of (VStr "HIGH and medium") (VStr "")) H1 (or_introl H2)).
Defined.

Lemma mock_summarize_eq (l : lead) :
  let t := PyStr.strip (py_str (ticket l)) in
  mock_summarize l =
    if 120 <? String.length t then PyStr.slice_to 120 t +:+ "..." else t.
Proof.
  intros t. unfold mock_summarize. fold t.
  destruct (120 <? String.length t) eqn:E.
  - destruct t; [discriminate | reflexivity].
  - apply Nat.ltb_ge in E.
    destruct t; simpl PyStr.truthy; cbv iota; [reflexivity |].
    rewrite append_nil_r. apply slice_to_all. exact E.
Qed.

(** C4, as the code has it: the offline summary is computed from the ticket
    text with its surrounding whitespace removed.  It has at most 123
    characters; it is a prefix of the stripped text when it does not end
    with the marker, and equal to it when that text has at most 120
    characters; an empty or whitespace-only ticket gives the empty summary;
    a stripped text of 200 characters gives its first 120 characters
    followed by the marker. *)
Theorem mock_summarize_bounded (l : lead) :
  let t := PyStr.strip (py_str (ticket l)) in
  let s := mock_summarize l in
  (exists pre post, py_str (ticket l) = pre +:+ t +:+ post
                    /\ all_space pre = true /\ all_space post = true) /\
  String.length s <= 123 /\
  ((forall p, s <> p +:+ "...") -> exists post, t = s +:+ post) /\
  (String.length t <= 120 -> s = t) /\
  (all_space (py_str (ticket l)) = true -> s = EmptyString) /\
  (String.length t = 200 -> s = PyStr.slice_to 120 t +:+ "...").
Proof.
  intros t s. subst s. rewrite mock_summarize_eq. fold t.
  split; [apply strip_decompose |].
  destruct (120 <? String.length t) eqn:E.
  - apply Nat.ltb_lt in E. repeat split.
    + rewrite length_append. pose proof (length_slice_to 120 t) as Hl.
      change (String.length "...") with 3. lia.
    + intros H. exfalso. exact (H _ eq_refl).
    + intros H. lia.
    + intros H. apply strip_empty_iff in H. fold t in H.
      rewrite H in E. simpl in E. lia.
  - apply Nat.ltb_ge in E. repeat split.
    + lia.
    + intros _. exists EmptyString. symmetry. apply append_nil_r.
    + intros H. apply strip_empty_iff in H. exact H.
    + intros H. lia.
Qed.

Lemma mock_summarize_bounded_witness :
  let l := Sample.lead_of (VStr "") (VStr (" " +:+ Sample.replicate 200 "x" +:+ " ")) in
  (forall p, mock_summarize (Sample.lead_of (VStr "") (VStr "  ok ")) <> p +:+ "...") /\
  (exists post, PyStr.strip "  ok " = mock_summarize (Sample.lead_of (VStr "") (VStr "  ok ")) +:+ post) /\
  String.length (PyStr.strip "  ok ") <= 120 /\
  mock_summarize (Sample.lead_of (VStr "") (VStr "  ok ")) = "ok"%string /\
  all_space "   " = true /\
  mock_summarize (Sample.lead_of (VStr "") (VStr "   ")) = EmptyString /\
  String.length (PyStr.strip (py_str (ticket l))) = 200 /\
  mock_summarize l = Sample.replicate 120 "x" +:+ "...".
Proof.
  intros l.
  pose proof (mock_summarize_bounded
                (Sample.lead_of (VStr "") (VStr "  ok ")))
    as (_ & _ & Hp & He & _ & _).
  pose proof (mock_summarize_bounded (Sample.lead_of (VStr "") (VStr "   ")))
    as (_ & _ & _ & _ & Hs & _).
  pose proof (mock_summarize_bounded l) as (_ & _ & _ & _ & _ & Hl).
  assert (Hn : forall p, mock_summarize
                 (Sample.lead_of (VStr "") (VStr "  ok ")) <> p +:+ "...").
  { intros p H. apply (f_equal String.length) in H.
    rewrite length_append in H.
    change (String.length (mock_summarize _)) with 2 in H.
    change (String.length "...") with 3 in H. lia. }
  split; [exact Hn |]. split; [exact (Hp Hn) |].
  split; [vm_compute; lia |].
  split; [exact (He ltac:(vm_compute; lia)) |].
  split; [reflexivity |].
  split; [exact (Hs eq_refl) |].
  split; [reflexivity |].
  exact (Hl eq_refl).
Defined.

(** C4 as stated fails on tickets with surrounding whitespace: the summary
    of " a" is "a", which carries no marker and is not a prefix of the
    ticket; and for a ticket of 200 characters that begins with a space the
    summary is not the first 120 characters of the ticket with the marker. *)
Lemma mock_summarize_not_prefix :
  (mock_summarize (Sample.lead_of (VStr "") (VStr " a")) = "a"%string /\
   String.prefix (mock_summarize (Sample.lead_of (VStr "") (VStr " a"))) " a"
   = false) /\
  (String.length (" " +:+ Sample.replicate 199 "x") = 200 /\
   mock_summarize
     (Sample.lead_of (VStr "") (VStr (" " +:+ Sample.replicate 199 "x")))
   <> PyStr.slice_to 120 (" " +:+ Sample.replicate 199 "x") +:+ "...").
Proof.
  split; [split; reflexivity |].
  split; [reflexivity |].
  vm_compute. discriminate.
Qed.

(** A cell missing from a short row is [None]; [str] renders it as the text
    "None", which the offline strategy then classifies and summarises. *)
Example missing_cells_offline :
  mock_classify (Sample.lead_of VNone VNone) = "Cold"%string /\
  mock_summarize (Sample.lead_of VNone VNone) = "None"%string.
Proof. split; reflexivity. Qed.

(** ** The model-backed classifier *)

Section OpenAI.

Context {float : Type}.
Variable cfg : config.
Variable w : world float.

Lemma mock_classify_in_tiers (l : lead) : In (mock_classify l) tiers.
Proof.
  unfold tiers. destruct (mock_classify_cases l) as [-> | [-> | ->]];
    simpl; auto.
Qed.

(** What [openai_classify] does with a completion whose first choice
    carries the text [c]. *)
Lemma openai_classify_text (l : lead) (s : st) (c : string) (rest : list pyval) :
  create w (calls s) (classify_request cfg l) = Returns (VStr c :: rest) ->
  openai_classify cfg w l s =
    (match PyStr.split (PyStr.strip c) with
     | [] => inl (IndexError "list index out of range")
     | word :: _ =>
         inr (if PyStr.in_tuple (PyStr.capitalize word) tiers
              then PyStr.capitalize word else mock_classify l)
     end, called s).
Proof.
  intros H. unfold openai_classify, bind, chat.
  change {| model := OPENAI_MODEL cfg; content := classify_prompt l;
            temperature := 0%Q; max_tokens := 6%Z |}
    with (classify_request cfg l).
  rewrite H. cbn [index0 ret method_strip].
  destruct (PyStr.split (PyStr.strip c)) as [|word words]; cbn [index0 ret raise].
  - reflexivity.
  - fold tiers. destruct (PyStr.in_tuple (PyStr.capitalize word) tiers); reflexivity.
Qed.

(** Whatever the client does, a value returned by [openai_classify] is one
    of the three tiers. *)
Lemma openai_classify_returns_tier (l : lead) (s s' : st) (v : string) :
  openai_classify cfg w l s = (inr v, s') -> In v tiers.
Proof.
  unfold openai_classify, bind, chat.
  destruct (create w (calls s) _) as [e | choices]; [discriminate |].
  destruct choices as [|c rest]; cbn [index0 ret raise]; [discriminate |].
  destruct c as [c |]; cbn [method_strip ret raise]; [| discriminate].
  destruct (PyStr.split (PyStr.strip c)) as [|word words];
    cbn [index0 ret raise]; [discriminate |].
  fold tiers.
  destruct (PyStr.in_tuple (PyStr.capitalize word) tiers) eqn:E;
    unfold ret; intros [= <- _].
  - apply in_tuple_iff. exact E.
  - apply mock_classify_in_tiers.
Qed.

(** C6: when the first word of the completion, capitalised, is not one of
    Hot, Warm, Cold, [openai_classify] returns what [mock_classify] returns
    for the lead and does not raise; and every value [openai_classify]
    returns is one of Hot, Warm, Cold. *)
Theorem openai_classify_fallback (l : lead) (s : st) :
  (forall c rest word words,
     create w (calls s) (classify_request cfg l) = Returns (VStr c :: rest) ->
     PyStr.split (PyStr.strip c) = word :: words ->
     ~ In (PyStr.capitalize word) tiers ->
     openai_classify cfg w l s = (inr (mock_classify l), called s)) /\
  (forall v s', openai_classify cfg w l s = (inr v, s') -> In v tiers).
Proof.
  split.
  - intros c rest word words Hc Hw Hn.
    rewrite (openai_classify_text l s c rest Hc), Hw.
    destruct (PyStr.in_tuple (PyStr.capitalize word) tiers) eqn:E;
      [| reflexivity].
    apply in_tuple_iff in E. contradiction.
  - intros v s' H. eapply openai_classify_returns_tier. exact H.
Qed.

(** C9: when the first choice of the completion is empty or whitespace
    only, [openai_classify] raises [IndexError] and does not fall back; a
    completion text on which it returns has at least one word. *)
Theorem openai_classify_blank (l : lead) (s : st) (c : string) (rest : list pyval) :
  create w (calls s) (classify_request cfg l) = Returns (VStr c :: rest) ->
  (all_space c = true ->
   openai_classify cfg w l s
   = (inl (IndexError "list index out of range"), called s)) /\
  (forall v s', openai_classify cfg w l s = (inr v, s') ->
                all_space c = false /\
                exists word words, PyStr.split (PyStr.strip c) = word :: words).
Proof.
  intros Hc. rewrite (openai_classify_text l s c rest Hc). split.
  - intros H. apply split_strip_nil_iff in H. rewrite H. reflexivity.
  - intros v s' H.
    destruct (PyStr.split (PyStr.strip c)) as [|word words] eqn:E;
      [discriminate |].
    split; [| eauto].
    destruct (all_space c) eqn:Es; [| reflexivity].
    apply split_strip_nil_iff in Es. congruence.
Qed.

End OpenAI.

Lemma openai_classify_fallback_witness :
  let w := Sample.world_of Sample.five_rows (Sample.echo " maybe later ") in
  let l := Sample.lead_of (VStr "Medium") (VStr "") in
  create w 0 (classify_request Sample.online l) = Returns [VStr " maybe later "] /\
  PyStr.split (PyStr.strip " maybe later ") = ["maybe"; "later"]%string /\
  ~ In (PyStr.capitalize "maybe") tiers /\
  openai_classify Sample.online w l Sample.s0 = (inr "Warm"%string, called Sample.s0) /\
  In "Warm"%string tiers.
Proof.
  intros w l.
  assert (Hn : ~ In (PyStr.capitalize "maybe") tiers).
  { rewrite <- in_tuple_iff. discriminate. }
  pose proof (openai_classify_fallback Sample.online w l Sample.s0) as [H1 H2].
  pose proof (H1 _ _ _ _ eq_refl eq_refl Hn) as H.
  split; [reflexivity |]. split; [reflexivity |]. split; [exact Hn |].
  split; [exact H |]. exact (H2 _ _ H).
Defined.

Lemma openai_classify_blank_witness :
  let l := Sample.lead_of (VStr "Medium") (VStr "") in
  (create (Sample.world_of Sample.five_rows (Sample.echo "   ")) 0
     (classify_request Sample.online l) = Returns [VStr "   "] /\
   all_space "   " = true /\
   openai_classify Sample.online
     (Sample.world_of Sample.five_rows (Sample.echo "   ")) l Sample.s0
   = (inl (IndexError "list index out of range"), called Sample.s0)) /\
  (create (Sample.world5 9) 0 (classify_request Sample.online l)
   = Returns [VStr " warm "] /\
   openai_classify Sample.online (Sample.world5 9) l Sample.s0
   = (inr "Warm"%string, called Sample.s0) /\
   all_space " warm " = false /\
   exists word words, PyStr.split (PyStr.strip " warm ") = word :: words).
Proof.
  intros l. split.
  - split; [reflexivity |]. split; [reflexivity |].
    exact (proj1 (openai_classify_blank Sample.online
                    (Sample.world_of Sample.five_rows (Sample.echo "   "))
                    l Sample.s0 "   " [] eq_refl) eq_refl).
  - split; [reflexivity |]. split; [reflexivity |].
    exact (proj2 (openai_classify_blank Sample.online (Sample.world5 9)
                    l Sample.s0 " warm " [] eq_refl)
             "Warm"%string (called Sample.s0) eq_refl).
Defined.

(** ** The run loop *)

Section Run.

Context {float : Type} {R : Runtime float}.
Variable cfg : config.
Variable w : world float.

Lemma try_body_eq (l : lead) (t0 : float) (s : st) :
  try_body cfg w l t0 s =
    match strategy cfg w l s with
    | (inl e, s1) => (inl e, s1)
    | (inr (c, f, ts), s1) =>
        (inr (c, f, ts, fsub (time_time w (ticks s1)) t0), ticked s1)
    end.
Proof.
  unfold try_body, bind, time_, now, ret.
  destruct (strategy cfg w l s) as [[e | [[c f] ts]] s1]; reflexivity.
Qed.

Lemma count_if_app {A} (p : A -> bool) (a b : list A) :
  count_if p (a ++ b) = count_if p a + count_if p b.
Proof. induction a as [|x a IH]; simpl; [reflexivity | rewrite IH; lia]. Qed.

Lemma count_ok_err (its : list (item float)) :
  count_if is_ok its + count_if is_err its = List.length its.
Proof.
  induction its as [|[l c f ts lat | l e t] its IH]; simpl; lia.
Qed.

(** The loop appends one record per row, in order, whatever the strategy
    calls do, and counts each row once. *)
Lemma loop_spec (rows : list row) (v : locals float) (s : st) :
  exists its s',
    per_lead cfg w rows s its s' /\
    snd (loop cfg w rows v s) = s' /\
    results (fst (loop cfg w rows v s)) = results v ++ its /\
    n_processed (fst (loop cfg w rows v s)) = n_processed v + count_if is_ok its /\
    n_errors (fst (loop cfg w rows v s)) = n_errors v + count_if is_err its.
Proof.
  revert v s. induction rows as [|r rows IH]; intros v s.
  - exists [], s. simpl. rewrite app_nil_r.
    repeat split; try lia. constructor.
  - cbn [loop]. unfold process_row, now. rewrite try_body_eq.
    fold (ticked s).
    destruct (strategy cfg w (mk_lead r) (ticked s)) as [[e | [[c f] ts]] s1] eqn:E.
    + match goal with |- context [loop cfg w rows ?v1 s1] =>
        destruct (IH v1 s1) as (its & s' & Hrel & Hs & Hres & Hp & He) end.
      eexists (_ :: its), s'.
      split; [eapply per_lead_err; eassumption |].
      rewrite Hs, Hres, Hp, He. cbn [results n_processed n_errors count_if is_ok is_err].
      rewrite <- app_assoc. repeat split; try reflexivity; lia.
    + match goal with |- context [loop cfg w rows ?v1 (ticked s1)] =>
        destruct (IH v1 (ticked s1)) as (its & s' & Hrel & Hs & Hres & Hp & He) end.
      eexists (_ :: its), s'.
      split; [eapply per_lead_ok; eassumption |].
      rewrite Hs, Hres, Hp, He. cbn [results n_processed n_errors count_if is_ok is_err].
      rewrite <- app_assoc. repeat split; try reflexivity; lia.
Qed.

Lemma per_lead_length rows s its s' :
  per_lead cfg w rows s its s' -> List.length its = List.length rows.
Proof. induction 1; simpl; congruence. Qed.

Lemma per_lead_order rows s its s' :
  per_lead cfg w rows s its s' -> map item_lead its = map mk_lead rows.
Proof. induction 1; simpl; congruence. Qed.

(** A run over a readable CSV file always returns a body. *)
Lemma run_agent_csv (req : RunRequest) (rows : list row) (s : st) :
  fs w (csv_path req) = Csv rows ->
  exists sm its s',
    run_agent cfg w req s = (Body sm its, ticked s') /\
    per_lead cfg w rows (ticked s) its s' /\
    processed sm = count_if is_ok its /\
    errors sm = count_if is_err its /\
    (processed sm = 0 -> avg_latency_sec sm = PyInt 0).
Proof.
  intros H. unfold run_agent. rewrite H. unfold now. fold (ticked s).
  match goal with |- context [loop cfg w rows ?v1 (ticked s)] =>
    destruct (loop_spec rows v1 (ticked s)) as (its & s' & Hrel & Hs & Hres & Hp & He);
    destruct (loop cfg w rows v1 (ticked s)) as [v s2] end.
  cbn [fst snd results n_processed n_errors] in *. subst s2.
  eexists _, _, s'. split; [reflexivity |].
  cbn [processed errors avg_latency_sec]. rewrite Hres. cbn [app].
  split; [exact Hrel |]. split; [lia |]. split; [lia |].
  intros ->. reflexivity.
Qed.

Lemma run_agent_body_inv (req : RunRequest) (s s' : st) sm its :
  run_agent cfg w req s = (Body sm its, s') ->
  exists rows, fs w (csv_path req) = Csv rows.
Proof.
  unfold run_agent. destruct (fs w (csv_path req)) as [| e | rows];
    [discriminate | discriminate | eauto].
Qed.

End Run.

(** ** Properties of a run *)

Section RunClaims.

Context {float : Type} {R : Runtime float}.
Variable cfg : config.
Variable w : world float.

(** C1: over a readable CSV file the run returns one record per row, in
    row order.  Each row whose strategy calls raise gets an error record
    with the message and the trace of the exception, and the loop goes on
    with the next row from the state reached ([per_lead]).  With five rows
    of which one fails, the run returns five records, four successes and
    one error. *)
Theorem run_agent_isolates_failures (req : RunRequest) (rows : list row) (s : st) :
  fs w (csv_path req) = Csv rows ->
  exists sm its s',
    run_agent cfg w req s = (Body sm its, ticked s') /\
    per_lead cfg w rows (ticked s) its s' /\
    List.length its = List.length rows /\
    map item_lead its = map mk_lead rows /\
    processed sm = count_if is_ok its /\
    errors sm = count_if is_err its /\
    (List.length rows = 5 -> count_if is_err its = 1 ->
     List.length its = 5 /\ count_if is_ok its = 4 /\
     processed sm = 4 /\ errors sm = 1).
Proof.
  intros H.
  destruct (run_agent_csv cfg w req rows s H)
    as (sm & its & s' & Hrun & Hrel & Hp & He & _).
  exists sm, its, s'.
  pose proof (per_lead_length cfg w _ _ _ _ Hrel) as Hlen.
  pose proof (per_lead_order cfg w _ _ _ _ Hrel) as Hord.
  pose proof (count_ok_err its) as Hcnt.
  repeat split; try assumption; lia.
Qed.

(** C2: the counters of a run add up to the number of rows of the file:
    every row increments exactly one of [processed] and [errors]. *)
Theorem run_agent_counts (req : RunRequest) (rows : list row) (s : st) :
  fs w (csv_path req) = Csv rows ->
  exists sm its s',
    run_agent cfg w req s = (Body sm its, s') /\
    processed sm + errors sm = List.length rows.
Proof.
  intros H.
  destruct (run_agent_csv cfg w req rows s H)
    as (sm & its & s' & Hrun & Hrel & Hp & He & _).
  exists sm, its, (ticked s'). split; [exact Hrun |].
  rewrite Hp, He, count_ok_err. eapply per_lead_length. exact Hrel.
Qed.

(** C7: over a CSV file without data rows the run returns processed = 0,
    errors = 0, the integer 0 as average latency, and no records; it reads
    the clock twice and nothing else. *)
Theorem run_agent_empty_csv (req : RunRequest) (s : st) :
  fs w (csv_path req) = Csv [] ->
  run_agent cfg w req s =
    (Body {| processed := 0; errors := 0; avg_latency_sec := PyInt 0;
             total_time_sec :=
               round3 (fsub (time_time w (S (ticks s))) (time_time w (ticks s))) |}
          [], ticked (ticked s)).
Proof. intros H. unfold run_agent. rewrite H. reflexivity. Qed.

(** C8: when [csv_path] names nothing that exists, the handler raises
    [HTTPException] with status 400 and the message "CSV not found: <path>";
    it returns no body, reads no clock and calls no client. *)
Theorem run_agent_missing_csv (req : RunRequest) (s : st) :
  fs w (csv_path req) = Missing ->
  run_agent cfg w req s
  = (HTTPException 400 ("CSV not found: " +:+ csv_path req), s) /\
  (forall sm its s', run_agent cfg w req s <> (Body sm its, s')).
Proof.
  intros H. unfold run_agent. rewrite H. split; [reflexivity | discriminate].
Qed.

Lemma strategy_offline (l : lead) (s : st) :
  USE_OPENAI cfg = false ->
  strategy cfg w l s =
    (inr (mock_classify l,
          if PyStr.in_tuple (mock_classify l) ["Hot"; "Warm"]%string
          then mock_followup l else EmptyString,
          mock_summarize l), s).
Proof. intros H. unfold strategy. rewrite H. reflexivity. Qed.

Lemma per_lead_offline rows s its s' :
  USE_OPENAI cfg = false ->
  per_lead cfg w rows s its s' ->
  forall it, In it its ->
    exists l lat,
      it = ItemOk l (mock_classify l)
             (if PyStr.in_tuple (mock_classify l) ["Hot"; "Warm"]%string
              then mock_followup l else EmptyString)
             (mock_summarize l) lat.
Proof.
  intros Hoff. induction 1 as [s | r rows s c f ts s1 its s' Hs _ IH
                               | r rows s e s1 its s' Hs _ IH];
    intros it Hin.
  - destruct Hin.
  - rewrite strategy_offline in Hs by exact Hoff. injection Hs as <- <- <- <-.
    destruct Hin as [<- | Hin]; [eauto | exact (IH it Hin)].
  - rewrite strategy_offline in Hs by exact Hoff. discriminate.
Qed.

Lemma mock_summarize_nonempty_iff (l : lead) :
  mock_summarize l <> EmptyString <->
  all_space (py_str (ticket l)) = false.
Proof.
  rewrite mock_summarize_eq.
  destruct (all_space (py_str (ticket l))) eqn:E.
  - apply strip_empty_iff in E. rewrite E. simpl. split; congruence.
  - split; [reflexivity | intros _].
    assert (Hne : PyStr.strip (py_str (ticket l)) <> EmptyString).
    { intros H. apply strip_empty_iff in H. congruence. }
    destruct (120 <? _); [| exact Hne].
    intros H. apply (f_equal String.length) in H.
    rewrite length_append in H. simpl in H. lia.
Qed.

(** C5, as the code has it: in the offline variant every row yields a
    success record; its followup is non-empty exactly when its category is
    Hot or Warm, and, for a ticket cell holding a string, its ticket summary
    is non-empty exactly when the ticket has a character that is not
    whitespace. *)
Theorem offline_record_fields (req : RunRequest) (s s' : st) sm its :
  USE_OPENAI cfg = false ->
  run_agent cfg w req s = (Body sm its, s') ->
  forall it, In it its ->
    exists l c f ts lat,
      it = ItemOk l c f ts lat /\
      c = mock_classify l /\
      (f <> EmptyString <-> c = "Hot"%string \/ c = "Warm"%string) /\
      (forall tk, ticket l = VStr tk ->
                  (ts <> EmptyString <-> all_space tk = false)).
Proof.
  intros Hoff Hrun it Hin.
  destruct (run_agent_body_inv cfg w req s s' sm its Hrun) as [rows Hfs].
  destruct (run_agent_csv cfg w req rows s Hfs)
    as (sm0 & its0 & s0 & Hrun0 & Hrel & _).
  rewrite Hrun in Hrun0. injection Hrun0 as -> -> ->.
  destruct (per_lead_offline _ _ _ _ Hoff Hrel it Hin) as (l & lat & ->).
  eexists l, _, _, _, lat. split; [reflexivity |]. split; [reflexivity |].
  split.
  - destruct (PyStr.in_tuple (mock_classify l) ["Hot"; "Warm"]%string) eqn:E.
    + apply in_tuple_iff in E. simpl in E.
      split; [intros _; intuition congruence | intros _; apply mock_followup_nonempty].
    + split; [congruence |]. intros H.
      assert (In (mock_classify l) ["Hot"; "Warm"]%string) as Hi
          by (simpl; intuition congruence).
      apply in_tuple_iff in Hi. congruence.
  - intros tk Htk. rewrite mock_summarize_nonempty_iff, Htk. reflexivity.
Qed.

End RunClaims.

(** ** The run on sample inputs *)

Lemma run_agent_isolates_failures_witness :
  fs (Sample.world5 4) (csv_path default_request) = Csv Sample.five_rows /\
  exists sm its s',
    run_agent (R := Exact.runtime) Sample.online (Sample.world5 4)
      default_request Sample.s0 = (Body sm its, ticked s') /\
    List.length Sample.five_rows = 5 /\ count_if is_err its = 1 /\
    List.length its = 5 /\ count_if is_ok its = 4 /\
    processed sm = 4 /\ errors sm = 1.
Proof.
  split; [reflexivity |].
  destruct (run_agent_isolates_failures (R := Exact.runtime) Sample.online
              (Sample.world5 4) default_request Sample.five_rows Sample.s0
              eq_refl)
    as (sm & its & s' & Hrun & Hrel & Hlen & Hord & Hp & He & H5).
  assert (Herr : count_if is_err its = 1).
  { change (match fst (Body sm its, ticked s') with
            | Body _ i => count_if is_err i
            | _ => 0
            end = 1).
    rewrite <- Hrun. vm_compute. reflexivity. }
  exists sm, its, s'. split; [exact Hrun |]. split; [reflexivity |].
  split; [exact Herr |]. exact (H5 eq_refl Herr).
Defined.

Lemma run_agent_counts_witness :
  fs (Sample.world5 4) (csv_path default_request) = Csv Sample.five_rows /\
  exists sm its s',
    run_agent (R := Exact.runtime) Sample.online (Sample.world5 4)
      default_request Sample.s0 = (Body sm its, s') /\
    processed sm + errors sm = 5.
Proof.
  split; [reflexivity |].
  exact (run_agent_counts (R := Exact.runtime) Sample.online (Sample.world5 4)
           default_request Sample.five_rows Sample.s0 eq_refl).
Defined.

Lemma run_agent_empty_csv_witness :
  fs (Sample.world_of [] (Sample.service 0)) (csv_path default_request) = Csv [] /\
  run_agent (R := Exact.runtime) Sample.offline
    (Sample.world_of [] (Sample.service 0)) default_request Sample.s0
  = (Body {| processed := 0; errors := 0; avg_latency_sec := PyInt 0;
             total_time_sec := 0%Q |} [], {| ticks := 2; calls := 0 |}).
Proof.
  split; [reflexivity |].
  exact (run_agent_empty_csv (R := Exact.runtime) Sample.offline
           (Sample.world_of [] (Sample.service 0)) default_request Sample.s0
           eq_refl).
Defined.

Lemma run_agent_missing_csv_witness :
  fs (Sample.world5 0) "data/none.csv" = Missing /\
  run_agent (R := Exact.runtime) Sample.online (Sample.world5 0)
    {| csv_path := "data/none.csv" |} Sample.s0
  = (HTTPException 400 "CSV not found: data/none.csv", Sample.s0).
Proof.
  split; [reflexivity |].
  exact (proj1 (run_agent_missing_csv (R := Exact.runtime) Sample.online
                  (Sample.world5 0) {| csv_path := "data/none.csv" |}
                  Sample.s0 eq_refl)).
Defined.

Lemma offline_record_fields_witness :
  USE_OPENAI Sample.offline = false /\
  exists sm its s' lat,
    run_agent (R := Exact.runtime) Sample.offline (Sample.world5 0)
      default_request Sample.s0 = (Body sm its, s') /\
    In (ItemOk (mk_lead (Sample.mk_row "3" "Cy" "cy@core.io" "Core" "low" "   "))
          "Cold" EmptyString EmptyString lat) its /\
    "Cold"%string = mock_classify
               (mk_lead (Sample.mk_row "3" "Cy" "cy@core.io" "Core" "low" "   ")) /\
    (EmptyString <> EmptyString <-> "Cold"%string = "Hot"%string \/ "Cold"%string = "Warm"%string) /\
    (EmptyString <> EmptyString <-> all_space "   " = false).
Proof.
  split; [reflexivity |].
  assert (exists sm its s' lat,
             run_agent (R := Exact.runtime) Sample.offline (Sample.world5 0)
               default_request Sample.s0 = (Body sm its, s') /\
             In (ItemOk
                   (mk_lead (Sample.mk_row "3" "Cy" "cy@core.io" "Core" "low" "   "))
                   "Cold" EmptyString EmptyString lat) its)
    as (sm & its & s' & lat & Hrun & Hin).
  { do 4 eexists. split; [vm_compute; reflexivity |].
    right; right; left. reflexivity. }
  destruct (offline_record_fields (R := Exact.runtime) Sample.offline
              (Sample.world5 0) default_request Sample.s0 s' sm its eq_refl
              Hrun _ Hin)
    as (l & c & f & ts & lat' & Hit & Hc & Hf & Ht).
  injection Hit as <- <- <- <- <-.
  exists sm, its, s', lat. split; [exact Hrun |]. split; [exact Hin |].
  split; [exact Hc |]. split; [exact Hf |]. exact (Ht "   "%string eq_refl).
Defined.

(** C5 as stated fails on a ticket made of whitespace: the third sample row
    has the ticket "   ", which is not empty, and the offline run records an
    empty ticket summary for it. *)
Lemma offline_blank_ticket_summary :
  exists sm its s' l c f lat,
    run_agent (R := Exact.runtime) Sample.offline (Sample.world5 0)
      default_request Sample.s0 = (Body sm its, s') /\
    nth_error its 2 = Some (ItemOk l c f EmptyString lat) /\
    ticket l = VStr "   " /\
    ticket l <> VStr EmptyString.
Proof.
  do 7 eexists. split; [vm_compute; reflexivity |].
  split; [reflexivity |]. split; [reflexivity | discriminate].
Qed.

(** Five leads, the client failing on its fifth call (the summary of the
    second lead): that lead gets an error record, the other four succeed. *)
Example five_leads_one_failure :
  exists sm its s',
    run_agent (R := Exact.runtime) Sample.online (Sample.world5 4)
      default_request Sample.s0 = (Body sm its, s') /\
    map is_ok its = [true; false; true; true; true] /\
    map item_lead its = map mk_lead Sample.five_rows /\
    nth_error its 1
    = Some (ItemErr (mk_lead (Sample.mk_row "2" "Bo" "bo@bolt.io" "Bolt"
                                "Medium" "Login page fails"))
              "You exceeded your current quota"
              (Exact.last_line (APIError "You exceeded your current quota"))) /\
    processed sm = 4 /\ errors sm = 1 /\ calls s' = 12.
Proof.
  do 3 eexists. split; [vm_compute; reflexivity |].
  repeat split; reflexivity.
Qed.

(** The example of the specification: Ana at Acme, interest "high value",
    no ticket, offline. *)
Example ana_offline :
  exists sm s' lat,
    run_agent (R := Exact.runtime) Sample.offline
      (Sample.world_of [Sample.mk_row "7" "Ana" "ana@acme.io" "Acme" "high value" ""]
         (Sample.service 0))
      default_request Sample.s0
    = (Body sm
         [ItemOk (Sample.lead_of (VStr "high value") (VStr "")) "Hot"
            "Hi Ana, thanks for your interest in Acme. I'd be happy to schedule a quick call to discuss next steps."
            EmptyString lat], s').
Proof. do 3 eexists. vm_compute. reflexivity. Qed.

(** ** More facts about the string primitives *)

Section MoreStringFacts.

Import PyStr.

Lemma length_lstrip (s : string) : String.length (lstrip s) <= String.length s.
Proof.
  induction s as [|c s IH]; simpl; [lia |].
  destruct (isspace c); simpl; lia.
Qed.

Lemma lstrip_fixed_head (c : ascii) (r : string) :
  lstrip (String c r) = String c r -> isspace c = false.
Proof.
  simpl. destruct (isspace c); [| reflexivity].
  intros H. apply (f_equal String.length) in H.
  pose proof (length_lstrip r). simpl in H. lia.
Qed.

Lemma lstrip_head (c : ascii) (r : string) :
  isspace c = false -> lstrip (String c r) = String c r.
Proof. intros H. simpl. rewrite H. reflexivity. Qed.

Lemma lstrip_idem (s : string) : lstrip (lstrip s) = lstrip s.
Proof.
  induction s as [|c s IH]; simpl; [reflexivity |].
  destruct (isspace c) eqn:E; [exact IH |].
  simpl. rewrite E. reflexivity.
Qed.

Lemma rstrip_idem (s : string) : rstrip (rstrip s) = rstrip s.
Proof.
  induction s as [|c s IH]; simpl; [reflexivity |].
  destruct (rstrip s) as [|a r] eqn:E.
  - destruct (isspace c) eqn:Ec; simpl; [reflexivity |].
    rewrite Ec. reflexivity.
  - change (rstrip (String c (String a r)))
      with (match rstrip (String a r) with
            | EmptyString => if isspace c then EmptyString else String c EmptyString
            | String x y => String c (String x y)
            end).
    rewrite IH. reflexivity.
Qed.

Lemma rstrip_head (c : ascii) (r : string) :
  isspace c = false -> exists r', rstrip (String c r) = String c r'.
Proof.
  intros H. simpl. destruct (rstrip r); [rewrite H |]; eauto.
Qed.

Lemma lstrip_rstrip (t : string) :
  lstrip t = t -> lstrip (rstrip t) = rstrip t.
Proof.
  destruct t as [|c r]; [reflexivity |].
  intros H. apply lstrip_fixed_head in H.
  destruct (rstrip_head c r H) as [r' ->]. apply lstrip_head. exact H.
Qed.

Lemma lstrip_strip (s : string) : lstrip (strip s) = strip s.
Proof. unfold strip. apply lstrip_rstrip. apply lstrip_idem. Qed.

(** [strip] leaves nothing to strip. *)
Lemma strip_idem (s : string) : strip (strip s) = strip s.
Proof.
  unfold strip at 1. rewrite lstrip_strip. unfold strip. apply rstrip_idem.
Qed.

Lemma append_nonempty_r (a b : string) :
  b <> EmptyString -> a +:+ b <> EmptyString.
Proof. destruct a; simpl; [auto | discriminate]. Qed.

Lemma rstrip_append (a b : string) :
  rstrip b <> EmptyString -> rstrip (a +:+ b) = a +:+ rstrip b.
Proof.
  intros Hb. induction a as [|c a IH]; simpl; [reflexivity |].
  rewrite IH. destruct (a +:+ rstrip b) eqn:E; [| reflexivity].
  exfalso. revert E. apply append_nonempty_r. exact Hb.
Qed.

Lemma length_slice_to_full (n : nat) (s : string) :
  n <= String.length s -> String.length (slice_to n s) = n.
Proof.
  revert s; induction n as [|n IH]; intros [|c s]; simpl; intros H;
    try reflexivity; try lia.
  rewrite IH by lia. reflexivity.
Qed.

Lemma slice_to_append (n : nat) (s x : string) :
  n <= String.length s -> slice_to n (slice_to n s +:+ x) = slice_to n s.
Proof.
  revert s; induction n as [|n IH]; intros [|c s]; simpl; intros H;
    try reflexivity; try lia.
  rewrite IH by lia. reflexivity.
Qed.

Lemma lower_idem (s : string) : lower (lower s) = lower s.
Proof.
  induction s as [|c s IH]; simpl; [reflexivity |].
  rewrite IH. f_equal.
  destruct c as [[] [] [] [] [] [] [] []]; reflexivity.
Qed.

Lemma title_lower_char (c : ascii) : title_char (lower_char c) = title_char c.
Proof. destruct c as [[] [] [] [] [] [] [] []]; reflexivity. Qed.

(** [capitalize] sees its argument only up to case. *)
Lemma capitalize_lower (s : string) : capitalize (lower s) = capitalize s.
Proof.
  destruct s as [|c r]; simpl; [reflexivity |].
  rewrite title_lower_char, lower_idem. reflexivity.
Qed.

Lemma capitalize_same_case (a b : string) :
  lower a = lower b -> capitalize a = capitalize b.
Proof.
  intros H. rewrite <- (capitalize_lower a), <- (capitalize_lower b), H.
  reflexivity.
Qed.

End MoreStringFacts.

(** ** Rows, start-up and the offline summary *)

Lemma mk_lead_agree (r r' : row) :
  (forall k, In k lead_columns -> r !! k = r' !! k) -> mk_lead r = mk_lead r'.
Proof.
  intros H. unfold mk_lead, row_get.
  rewrite (H "id"%string), (H "name"%string), (H "email"%string),
    (H "company"%string), (H "interest"%string), (H "ticket"%string)
    by (unfold lead_columns; simpl; tauto).
  reflexivity.
Qed.

(** X1: the lead built from a row depends on the six columns id, name,
    email, company, interest and ticket only: any other column of the row is
    ignored, and a column the row lacks reads as the empty string. *)
Theorem mk_lead_columns (r : row) :
  (forall r', (forall k, In k lead_columns -> r !! k = r' !! k) ->
              mk_lead r = mk_lead r') /\
  (forall k v, ~ In k lead_columns -> mk_lead (<[k := v]> r) = mk_lead r) /\
  (forall k, In k lead_columns -> r !! k = None ->
             row_get r k = VStr EmptyString /\
             mk_lead r = mk_lead (<[k := VStr EmptyString]> r)).
Proof.
  split; [| split].
  - intros r' H. apply mk_lead_agree. exact H.
  - intros k v Hk. apply mk_lead_agree. intros k' Hk'.
    apply lookup_insert_ne. intros ->. contradiction.
  - intros k Hk Hn. split; [unfold row_get; rewrite Hn; reflexivity |].
    unfold mk_lead, row_get.
    unfold lead_columns in Hk. simpl in Hk.
    destruct Hk as [<- | [<- | [<- | [<- | [<- | [<- | []]]]]]];
      rewrite Hn; rewrite ?lookup_insert_eq;
      rewrite ?lookup_insert_ne by discriminate; reflexivity.
Qed.

Lemma mk_lead_columns_witness :
  let r := Sample.mk_row "1" "Ana" "ana@acme.io" "Acme" "high value" "" in
  ~ In "phone"%string lead_columns /\
  mk_lead (<["phone"%string := VStr "555-0100"]> r) = mk_lead r /\
  In "ticket"%string lead_columns /\
  delete "ticket"%string r !! "ticket"%string = None /\
  row_get (delete "ticket"%string r) "ticket" = VStr EmptyString.
Proof.
  intros r.
  assert (Hp : ~ In "phone"%string lead_columns).
  { unfold lead_columns. simpl. intros H.
    repeat (destruct H as [H | H]; [discriminate H |]). exact H. }
  assert (Ht : In "ticket"%string lead_columns)
    by (unfold lead_columns; simpl; tauto).
  split; [exact Hp |].
  split; [exact (proj1 (proj2 (mk_lead_columns r)) _ _ Hp) |].
  split; [exact Ht |]. split; [reflexivity |].
  exact (proj1 (proj2 (proj2 (mk_lead_columns (delete "ticket"%string r)))
                  "ticket"%string Ht eq_refl)).
Defined.

Lemma strip_summary (t : string) :
  PyStr.strip t = t -> 120 < String.length t ->
  PyStr.strip (PyStr.slice_to 120 t +:+ "...") = PyStr.slice_to 120 t +:+ "...".
Proof.
  intros Ht Hlen. destruct t as [|c r]; [simpl in Hlen; lia |].
  assert (Hc : PyStr.isspace c = false).
  { apply (lstrip_fixed_head c r).
    pose proof (lstrip_strip (String c r)) as H. rewrite Ht in H. exact H. }
  unfold PyStr.strip.
  change (PyStr.slice_to 120 (String c r))
    with (String c (PyStr.slice_to 119 r)).
  change (String c (PyStr.slice_to 119 r) +:+ "...")
    with (String c (PyStr.slice_to 119 r +:+ "...")).
  rewrite lstrip_head by exact Hc.
  change (String c (PyStr.slice_to 119 r +:+ "..."))
    with (String c (PyStr.slice_to 119 r) +:+ "...").
  rewrite rstrip_append; [reflexivity | discriminate].
Qed.

(** X2: the offline summary carries no whitespace at either end, and
    summarising a summary gives it back: a lead whose ticket is the summary
    of another lead has that same summary. *)
Theorem mock_summarize_idempotent (l l' : lead) :
  ticket l' = VStr (mock_summarize l) ->
  PyStr.strip (mock_summarize l) = mock_summarize l /\
  mock_summarize l' = mock_summarize l.
Proof.
  intros Hl'.
  assert (Hs : PyStr.strip (mock_summarize l) = mock_summarize l).
  { rewrite mock_summarize_eq.
    destruct (120 <? _) eqn:E.
    - apply Nat.ltb_lt in E. apply strip_summary; [apply strip_idem | exact E].
    - apply strip_idem. }
  split; [exact Hs |].
  rewrite (mock_summarize_eq l'), Hl'. cbn [py_str]. rewrite Hs.
  rewrite mock_summarize_eq.
  set (t := PyStr.strip (py_str (ticket l))).
  destruct (120 <? String.length t) eqn:E.
  - apply Nat.ltb_lt in E.
    rewrite length_append, length_slice_to_full by lia.
    change (String.length "...") with 3.
    replace (120 <? 120 + 3) with true by reflexivity.
    rewrite slice_to_append by lia. reflexivity.
  - rewrite E. reflexivity.
Qed.

Lemma mock_summarize_idempotent_witness :
  let l := Sample.lead_of (VStr "") (VStr ("  " +:+ Sample.replicate 130 "x")) in
  let l' := Sample.lead_of (VStr "low") (VStr (mock_summarize l)) in
  ticket l' = VStr (mock_summarize l) /\
  mock_summarize l = Sample.replicate 120 "x" +:+ "..." /\
  PyStr.strip (mock_summarize l) = mock_summarize l /\
  mock_summarize l' = mock_summarize l.
Proof.
  intros l l'. split; [reflexivity |]. split; [reflexivity |].
  exact (mock_summarize_idempotent l l' eq_refl).
Defined.

(** X3: start-up.  A process that starts with the model-backed strategy
    holds a non-empty, stripped API key and a client that could be built;
    with the flag on and the key unset or blank, start-up fails; with the
    flag anything but 1, true or yes (up to case), start-up succeeds offline
    whatever the key and the client library do. *)
Theorem load_checks_key (env : gmap string string) (imp : option exn) :
  let flag := PyStr.lower (getenv env "USE_OPENAI" "false") in
  let key := getenv env "OPENAI_API_KEY" EmptyString in
  let mdl := getenv env "OPENAI_MODEL" "gpt-3.5-turbo" in
  (forall cfg k, load env imp = Started cfg k ->
     OPENAI_MODEL cfg = mdl /\ k = PyStr.strip key /\
     (USE_OPENAI cfg = true ->
      In flag ["1"; "true"; "yes"]%string /\ all_space key = false /\ imp = None)) /\
  (In flag ["1"; "true"; "yes"]%string -> all_space key = true ->
   load env imp
   = RuntimeError "USE_OPENAI is true but OPENAI_API_KEY is not set in .env") /\
  (~ In flag ["1"; "true"; "yes"]%string ->
   load env imp
   = Started {| USE_OPENAI := false; OPENAI_MODEL := mdl |} (PyStr.strip key)).
Proof.
  intros flag key mdl. unfold load. fold flag key mdl.
  destruct (PyStr.in_tuple flag ["1"; "true"; "yes"]%string) eqn:Ef.
  - pose proof (proj1 (in_tuple_iff _ _) Ef) as Hin.
    destruct (PyStr.truthy (PyStr.strip key)) eqn:Ek; cbn [negb].
    + apply truthy_iff in Ek.
      assert (Hk : all_space key = false).
      { destruct (all_space key) eqn:E; [| reflexivity].
        apply strip_empty_iff in E. contradiction. }
      split; [| split].
      * intros cfg k H. destruct imp as [e |]; [discriminate |].
        injection H as <- <-. cbn. auto.
      * intros _ H. congruence.
      * intros H. contradiction.
    + split; [| split].
      * intros cfg k H. discriminate.
      * intros _ _. reflexivity.
      * intros H. contradiction.
  - assert (Hn : ~ In flag ["1"; "true"; "yes"]%string).
    { intros H. apply in_tuple_iff in H. congruence. }
    split; [| split].
    + intros cfg k H. injection H as <- <-. cbn.
      repeat split; discriminate.
    + intros H. contradiction.
    + intros _. reflexivity.
Qed.

Lemma load_checks_key_witness :
  (load {[ "USE_OPENAI"%string := "True"%string;
           "OPENAI_API_KEY"%string := " sk-test "%string ]} None
   = Started {| USE_OPENAI := true; OPENAI_MODEL := "gpt-3.5-turbo" |} "sk-test" /\
   In "true"%string ["1"; "true"; "yes"]%string /\ all_space " sk-test " = false) /\
  (In "yes"%string ["1"; "true"; "yes"]%string /\ all_space "  " = true /\
   load {[ "USE_OPENAI"%string := "YES"%string;
           "OPENAI_API_KEY"%string := "  "%string ]} None
   = RuntimeError "USE_OPENAI is true but OPENAI_API_KEY is not set in .env") /\
  (~ In "false"%string ["1"; "true"; "yes"]%string /\
   load ∅ (Some (OSError "No module named 'openai'"))
   = Started {| USE_OPENAI := false; OPENAI_MODEL := "gpt-3.5-turbo" |} "").
Proof.
  assert (Hn : ~ In "false"%string ["1"; "true"; "yes"]%string).
  { simpl. intros H.
    repeat (destruct H as [H | H]; [discriminate H |]). exact H. }
  assert (Ht : In "true"%string ["1"; "true"; "yes"]%string) by (simpl; tauto).
  assert (Hy : In "yes"%string ["1"; "true"; "yes"]%string) by (simpl; tauto).
  split; [| split].
  - pose proof (proj1 (load_checks_key
                         {[ "USE_OPENAI"%string := "True"%string;
                            "OPENAI_API_KEY"%string := " sk-test "%string ]} None)
                  _ _ eq_refl) as (_ & _ & H).
    split; [reflexivity |]. split; [exact Ht |]. exact (proj1 (proj2 (H eq_refl))).
  - split; [exact Hy |]. split; [reflexivity |].
    exact (proj1 (proj2 (load_checks_key
                           {[ "USE_OPENAI"%string := "YES"%string;
                              "OPENAI_API_KEY"%string := "  "%string ]} None))
             Hy eq_refl).
  - split; [exact Hn |].
    exact (proj2 (proj2 (load_checks_key ∅
                           (Some (OSError "No module named 'openai'")))) Hn).
Defined.

(** ** The client wrappers and the strategy *)

Section MoreOpenAI.

Context {float : Type}.
Variable cfg : config.
Variable w : world float.

Lemma openai_classify_state (l : lead) (s s' : st) r :
  openai_classify cfg w l s = (r, s') -> s' = called s.
Proof.
  unfold openai_classify, bind, chat. fold (called s).
  destruct (create w (calls s) _) as [e | choices]; [congruence |].
  destruct choices as [|c rest]; cbn [index0 ret raise]; [congruence |].
  destruct c as [c |]; cbn [method_strip ret raise]; [| congruence].
  destruct (PyStr.split (PyStr.strip c)) as [|word words];
    cbn [index0 ret raise]; [congruence |].
  destruct (PyStr.in_tuple _ _); unfold ret; congruence.
Qed.

Lemma openai_classify_raises (l : lead) (s : st) (e : exn) :
  create w (calls s) (classify_request cfg l) = Raises e ->
  openai_classify cfg w l s = (inl e, called s).
Proof.
  intros H. unfold openai_classify, bind, chat.
  change {| model := OPENAI_MODEL cfg; content := classify_prompt l;
            temperature := 0%Q; max_tokens := 6%Z |}
    with (classify_request cfg l).
  rewrite H. reflexivity.
Qed.

Lemma openai_followup_eq (l : lead) (s : st) :
  openai_followup cfg w l s
  = (first_text (create w (calls s) (followup_request cfg l)), called s).
Proof.
  unfold openai_followup, bind, chat.
  change {| model := OPENAI_MODEL cfg; content := followup_prompt l;
            temperature := (3 # 10)%Q; max_tokens := 150%Z |}
    with (followup_request cfg l).
  destruct (create w (calls s) (followup_request cfg l)) as [e | [|[c |] rest]];
    reflexivity.
Qed.

Lemma openai_summarize_eq (l : lead) (s : st) :
  openai_summarize cfg w l s
  = (first_text (create w (calls s) (summarize_request cfg l)), called s).
Proof.
  unfold openai_summarize, bind, chat.
  change {| model := OPENAI_MODEL cfg; content := summarize_prompt l;
            temperature := 0%Q; max_tokens := 60%Z |}
    with (summarize_request cfg l).
  destruct (create w (calls s) (summarize_request cfg l)) as [e | [|[c |] rest]];
    reflexivity.
Qed.

Lemma first_text_inr (c : completion) (v : string) :
  first_text c = inr v ->
  exists t rest, c = Returns (VStr t :: rest) /\ v = PyStr.strip t.
Proof.
  destruct c as [e | [|[t |] rest]]; simpl; intros H; try discriminate.
  injection H as <-. eauto.
Qed.

(** X4: the classification answer is read up to case and only from its
    first word: when the first word of the completion equals hot, warm or
    cold in any mix of cases, [openai_classify] returns that tier as Hot,
    Warm or Cold, whatever follows the word. *)
Theorem openai_classify_ignores_case (l : lead) (s : st)
    (c : string) (rest : list pyval) (word : string) (words : list string)
    (tier : string) :
  create w (calls s) (classify_request cfg l) = Returns (VStr c :: rest) ->
  PyStr.split (PyStr.strip c) = word :: words ->
  In tier tiers ->
  PyStr.lower word = PyStr.lower tier ->
  openai_classify cfg w l s = (inr tier, called s).
Proof.
  intros Hc Hw Ht Hl.
  rewrite (openai_classify_text cfg w l s c rest Hc), Hw.
  assert (Hcap : PyStr.capitalize word = tier).
  { rewrite (capitalize_same_case word tier Hl).
    unfold tiers in Ht. simpl in Ht.
    destruct Ht as [<- | [<- | [<- | []]]]; reflexivity. }
  rewrite Hcap.
  replace (PyStr.in_tuple tier tiers) with true; [reflexivity |].
  symmetry. apply in_tuple_iff. exact Ht.
Qed.

(** X5: none of the three wrappers catches what the client raises: the
    exception comes out unchanged; and each wrapper calls the client exactly
    once and never reads the clock, however it ends. *)
Theorem openai_wrappers_propagate (l : lead) (s : st) :
  (forall e, create w (calls s) (classify_request cfg l) = Raises e ->
             openai_classify cfg w l s = (inl e, called s)) /\
  (forall e, create w (calls s) (followup_request cfg l) = Raises e ->
             openai_followup cfg w l s = (inl e, called s)) /\
  (forall e, create w (calls s) (summarize_request cfg l) = Raises e ->
             openai_summarize cfg w l s = (inl e, called s)) /\
  snd (openai_classify cfg w l s) = called s /\
  snd (openai_followup cfg w l s) = called s /\
  snd (openai_summarize cfg w l s) = called s.
Proof.
  repeat split.
  - intros e H. apply openai_classify_raises. exact H.
  - intros e H. rewrite openai_followup_eq, H. reflexivity.
  - intros e H. rewrite openai_summarize_eq, H. reflexivity.
  - destruct (openai_classify cfg w l s) as [r s'] eqn:E.
    apply openai_classify_state in E. exact E.
  - rewrite openai_followup_eq. reflexivity.
  - rewrite openai_summarize_eq. reflexivity.
Qed.

(** X6: a text that [openai_followup] or [openai_summarize] returns is the
    content of the first choice with the whitespace around it removed, so it
    neither starts nor ends with whitespace; a completion without choices
    makes them raise [IndexError], a first choice without content
    [AttributeError]. *)
Theorem openai_text_trimmed (l : lead) (s : st) :
  (forall v s', openai_followup cfg w l s = (inr v, s') ->
     exists c rest,
       create w (calls s) (followup_request cfg l) = Returns (VStr c :: rest) /\
       v = PyStr.strip c /\ PyStr.strip v = v) /\
  (forall v s', openai_summarize cfg w l s = (inr v, s') ->
     exists c rest,
       create w (calls s) (summarize_request cfg l) = Returns (VStr c :: rest) /\
       v = PyStr.strip c /\ PyStr.strip v = v) /\
  (create w (calls s) (followup_request cfg l) = Returns [] ->
   openai_followup cfg w l s
   = (inl (IndexError "list index out of range"), called s)) /\
  (create w (calls s) (summarize_request cfg l) = Returns [] ->
   openai_summarize cfg w l s
   = (inl (IndexError "list index out of range"), called s)) /\
  (forall rest,
     create w (calls s) (followup_request cfg l) = Returns (VNone :: rest) ->
     openai_followup cfg w l s
     = (inl (AttributeError "'NoneType' object has no attribute 'strip'"),
        called s)) /\
  (forall rest,
     create w (calls s) (summarize_request cfg l) = Returns (VNone :: rest) ->
     openai_summarize cfg w l s
     = (inl (AttributeError "'NoneType' object has no attribute 'strip'"),
        called s)).
Proof.
  rewrite openai_followup_eq, openai_summarize_eq.
  split; [| split; [| split; [| split; [| split]]]].
  - intros v s' H. injection H as H _.
    apply first_text_inr in H as (c & rest & Hc & ->).
    exists c, rest. split; [exact Hc |]. split; [reflexivity | apply strip_idem].
  - intros v s' H. injection H as H _.
    apply first_text_inr in H as (c & rest & Hc & ->).
    exists c, rest. split; [exact Hc |]. split; [reflexivity | apply strip_idem].
  - intros ->. reflexivity.
  - intros ->. reflexivity.
  - intros rest ->. reflexivity.
  - intros rest ->. reflexivity.
Qed.

End MoreOpenAI.

Lemma openai_classify_ignores_case_witness :
  let w := Sample.world_of Sample.five_rows (Sample.echo " COLD lead, no budget ") in
  let l := Sample.lead_of (VStr "high") (VStr "") in
  create w 0 (classify_request Sample.online l)
  = Returns [VStr " COLD lead, no budget "] /\
  PyStr.split (PyStr.strip " COLD lead, no budget ")
  = ["COLD"; "lead,"; "no"; "budget"]%string /\
  In "Cold"%string tiers /\
  PyStr.lower "COLD" = PyStr.lower "Cold" /\
  openai_classify Sample.online w l Sample.s0
  = (inr "Cold"%string, called Sample.s0).
Proof.
  intros w l.
  assert (Ht : In "Cold"%string tiers) by (unfold tiers; simpl; tauto).
  split; [reflexivity |]. split; [reflexivity |]. split; [exact Ht |].
  split; [reflexivity |].
  exact (openai_classify_ignores_case Sample.online w l Sample.s0
           " COLD lead, no budget " [] "COLD" ["lead,"; "no"; "budget"]%string
           "Cold" eq_refl eq_refl Ht eq_refl).
Defined.

Lemma openai_wrappers_propagate_witness :
  let w := Sample.world5 0 in
  let l := Sample.lead_of (VStr "high") (VStr "Login fails") in
  let e := APIError "You exceeded your current quota" in
  (create w 0 (classify_request Sample.online l) = Raises e /\
   openai_classify Sample.online w l Sample.s0 = (inl e, called Sample.s0)) /\
  (create w 0 (followup_request Sample.online l) = Raises e /\
   openai_followup Sample.online w l Sample.s0 = (inl e, called Sample.s0)) /\
  (create w 0 (summarize_request Sample.online l) = Raises e /\
   openai_summarize Sample.online w l Sample.s0 = (inl e, called Sample.s0)).
Proof.
  intros w l e.
  pose proof (openai_wrappers_propagate Sample.online w l Sample.s0)
    as (H1 & H2 & H3 & _).
  split; [| split]; (split; [reflexivity |]).
  - exact (H1 e eq_refl).
  - exact (H2 e eq_refl).
  - exact (H3 e eq_refl).
Defined.

Lemma openai_text_trimmed_witness :
  let l := Sample.lead_of (VStr "high") (VStr "Login fails") in
  (openai_followup Sample.online (Sample.world5 9) l Sample.s0
   = (inr "Thanks for reaching out."%string, called Sample.s0) /\
   exists c rest,
     create (Sample.world5 9) 0 (followup_request Sample.online l)
     = Returns (VStr c :: rest) /\
     "Thanks for reaching out."%string = PyStr.strip c /\
     PyStr.strip "Thanks for reaching out." = "Thanks for reaching out."%string) /\
  (create (Sample.world_of [] (fun _ _ => Returns [])) 0
     (summarize_request Sample.online l) = Returns [] /\
   openai_summarize Sample.online (Sample.world_of [] (fun _ _ => Returns []))
     l Sample.s0
   = (inl (IndexError "list index out of range"), called Sample.s0)) /\
  (create (Sample.world_of [] (fun _ _ => Returns [VNone])) 0
     (followup_request Sample.online l) = Returns [VNone] /\
   openai_followup Sample.online
     (Sample.world_of [] (fun _ _ => Returns [VNone])) l Sample.s0
   = (inl (AttributeError "'NoneType' object has no attribute 'strip'"),
      called Sample.s0)).
Proof.
  intros l. split; [| split].
  - split; [reflexivity |].
    exact (proj1 (openai_text_trimmed Sample.online (Sample.world5 9) l
                    Sample.s0) _ _ eq_refl).
  - split; [reflexivity |].
    exact (proj1 (proj2 (proj2 (proj2
             (openai_text_trimmed Sample.online
                (Sample.world_of [] (fun _ _ => Returns [])) l Sample.s0))))
             eq_refl).
  - split; [reflexivity |].
    exact (proj1 (proj2 (proj2 (proj2 (proj2
             (openai_text_trimmed Sample.online
                (Sample.world_of [] (fun _ _ => Returns [VNone])) l
                Sample.s0))))) [] eq_refl).
Defined.

(** ** What the strategy costs and reads *)

Lemma truthy_strip (s : string) :
  PyStr.truthy (PyStr.strip s) = negb (all_space s).
Proof.
  destruct (all_space s) eqn:E.
  - apply strip_empty_iff in E. rewrite E. reflexivity.
  - destruct (PyStr.strip s) eqn:Es; [| reflexivity].
    apply strip_empty_iff in Es. congruence.
Qed.

Section MoreStrategy.

Context {float : Type}.
Variable cfg : config.
Variable w : world float.

(** The model-backed branch of [strategy], step by step. *)
Lemma strategy_online_eq (l : lead) (s : st) :
  USE_OPENAI cfg = true ->
  strategy cfg w l s =
    match openai_classify cfg w l s with
    | (inl e, s1) => (inl e, s1)
    | (inr c, s1) =>
        match (if wants_followup c then openai_followup cfg w l s1
               else (inr EmptyString, s1)) with
        | (inl e, s2) => (inl e, s2)
        | (inr f, s2) =>
            match ticket l with
            | VNone =>
                (inl (AttributeError
                        "'NoneType' object has no attribute 'strip'"), s2)
            | VStr tk =>
                if all_space tk then (inr (c, f, EmptyString), s2)
                else match openai_summarize cfg w l s2 with
                     | (inl e, s3) => (inl e, s3)
                     | (inr ts, s3) => (inr (c, f, ts), s3)
                     end
            end
        end
    end.
Proof.
  intros H. unfold strategy. rewrite H. unfold bind, wants_followup.
  destruct (openai_classify cfg w l s) as [[e | c] s1]; [reflexivity |].
  destruct (PyStr.in_tuple c ["Hot"; "Warm"]%string).
  - destruct (openai_followup cfg w l s1) as [[e | f] s2]; [reflexivity |].
    destruct (ticket l) as [tk |]; cbn [method_strip ret raise]; [| reflexivity].
    rewrite truthy_strip. destruct (all_space tk); cbn [negb]; [reflexivity |].
    destruct (openai_summarize cfg w l s2) as [[e | ts] s3]; reflexivity.
  - cbn [ret]. destruct (ticket l) as [tk |]; cbn [method_strip ret raise];
      [| reflexivity].
    rewrite truthy_strip. destruct (all_space tk); cbn [negb]; [reflexivity |].
    destruct (openai_summarize cfg w l s1) as [[e | ts] s3]; reflexivity.
Qed.

Lemma followup_state (l : lead) (s s' : st) r :
  openai_followup cfg w l s = (r, s') -> s' = called s.
Proof. rewrite openai_followup_eq. congruence. Qed.

Lemma summarize_state (l : lead) (s s' : st) r :
  openai_summarize cfg w l s = (r, s') -> s' = called s.
Proof. rewrite openai_summarize_eq. congruence. Qed.

(** One lead costs between one and three calls in the model-backed mode,
    none offline, and the strategy calls never read the clock. *)
Lemma strategy_cost (l : lead) (s s' : st) r :
  strategy cfg w l s = (r, s') ->
  ticks s' = ticks s /\
  if USE_OPENAI cfg then calls s + 1 <= calls s' <= calls s + 3
  else calls s' = calls s /\ exists out, r = inr out.
Proof.
  destruct (USE_OPENAI cfg) eqn:Hon.
  - rewrite (strategy_online_eq l s Hon).
    destruct (openai_classify cfg w l s) as [[e | c] s1] eqn:E1;
      apply openai_classify_state in E1; subst s1.
    { intros [= <- <-]. simpl. lia. }
    destruct (wants_followup c).
    + destruct (openai_followup cfg w l (called s)) as [[e | f] s2] eqn:E2;
        apply followup_state in E2; subst s2.
      { intros [= <- <-]. simpl. lia. }
      destruct (ticket l) as [tk |]; [| intros [= <- <-]; simpl; lia].
      destruct (all_space tk); [intros [= <- <-]; simpl; lia |].
      destruct (openai_summarize cfg w l _) as [[e | ts] s3] eqn:E3;
        apply summarize_state in E3; subst s3;
        intros [= <- <-]; simpl; lia.
    + destruct (ticket l) as [tk |]; [| intros [= <- <-]; simpl; lia].
      destruct (all_space tk); [intros [= <- <-]; simpl; lia |].
      destruct (openai_summarize cfg w l _) as [[e | ts] s3] eqn:E3;
        apply summarize_state in E3; subst s3;
        intros [= <- <-]; simpl; lia.
  - unfold strategy. rewrite Hon. unfold ret. intros [= <- <-]. eauto.
Qed.

(** X7: in the model-backed mode a lead that is processed without error
    has a category among Hot, Warm, Cold; the follow-up call is made only
    for Hot and Warm and the summary call only for a ticket that is not
    blank, the skipped texts being empty; so the lead costs one call, plus
    one for the follow-up, plus one for the summary, and no clock reading. *)
Theorem strategy_online_calls (l : lead) (s s' : st) (c f ts : string) :
  USE_OPENAI cfg = true ->
  strategy cfg w l s = (inr (c, f, ts), s') ->
  In c tiers /\
  (c = "Cold"%string -> f = EmptyString) /\
  (exists tk, ticket l = VStr tk /\ (all_space tk = true -> ts = EmptyString) /\
     calls s' = calls s + 1 + (if wants_followup c then 1 else 0)
                + (if all_space tk then 0 else 1)) /\
  ticks s' = ticks s.
Proof.
  intros Hon. rewrite (strategy_online_eq l s Hon).
  destruct (openai_classify cfg w l s) as [[e | c0] s1] eqn:E1; [discriminate |].
  pose proof (openai_classify_returns_tier cfg w l s s1 c0 E1) as Hin.
  apply openai_classify_state in E1. subst s1.
  destruct (wants_followup c0) eqn:Ew.
  - destruct (openai_followup cfg w l (called s)) as [[e | f0] s2] eqn:E2;
      [discriminate |].
    apply followup_state in E2. subst s2.
    destruct (ticket l) as [tk |]; [| discriminate].
    destruct (all_space tk) eqn:Ea.
    + intros [= <- <- <- <-]. rewrite Ew.
      split; [exact Hin |]. split; [intros ->; discriminate Ew |].
      split; [| reflexivity]. exists tk. rewrite Ea.
      repeat split. simpl. lia.
    + destruct (openai_summarize cfg w l _) as [[e | ts0] s3] eqn:E3;
        [discriminate |].
      apply summarize_state in E3. subst s3.
      intros [= <- <- <- <-]. rewrite Ew.
      split; [exact Hin |]. split; [intros ->; discriminate Ew |].
      split; [| reflexivity]. exists tk. rewrite Ea.
      repeat split; [discriminate | simpl; lia].
  - destruct (ticket l) as [tk |]; [| discriminate].
    destruct (all_space tk) eqn:Ea.
    + intros [= <- <- <- <-]. rewrite Ew.
      split; [exact Hin |]. split; [reflexivity |].
      split; [| reflexivity]. exists tk. rewrite Ea.
      repeat split. simpl. lia.
    + destruct (openai_summarize cfg w l _) as [[e | ts0] s3] eqn:E3;
        [discriminate |].
      apply summarize_state in E3. subst s3.
      intros [= <- <- <- <-]. rewrite Ew.
      split; [exact Hin |]. split; [reflexivity |].
      split; [| reflexivity]. exists tk. rewrite Ea.
      repeat split; [discriminate | simpl; lia].
Qed.

(** X8: the strategy never looks at the id or the e-mail address of a lead:
    two leads with the same name, company, interest and ticket get the same
    outcome, requests to the client included. *)
Theorem strategy_ignores_id_email (l l' : lead) (s : st) :
  name l = name l' -> company l = company l' ->
  interest l = interest l' -> ticket l = ticket l' ->
  strategy cfg w l s = strategy cfg w l' s /\
  classify_request cfg l = classify_request cfg l' /\
  followup_request cfg l = followup_request cfg l' /\
  summarize_request cfg l = summarize_request cfg l'.
Proof.
  destruct l as [i n e c it tk], l' as [i' n' e' c' it' tk']. cbn.
  intros -> -> -> ->. repeat split; reflexivity.
Qed.


End MoreStrategy.

Lemma strategy_online_calls_witness :
  let l := Sample.lead_of (VStr "low") (VStr "Login page fails") in
  USE_OPENAI Sample.online = true /\
  strategy Sample.online (Sample.world5 9) l Sample.s0
  = (inr ("Warm", "Thanks for reaching out.", "Thanks for reaching out.")%string,
     {| ticks := 0; calls := 3 |}) /\
  In "Warm"%string tiers /\
  exists tk, ticket l = VStr tk /\
             3 = 0 + 1 + (if wants_followup "Warm" then 1 else 0)
                 + (if all_space tk then 0 else 1).
Proof.
  intros l.
  pose proof (strategy_online_calls Sample.online (Sample.world5 9) l
                Sample.s0 _ _ _ _ eq_refl eq_refl)
    as (Hin & _ & (tk & Htk & _ & Hc) & _).
  split; [reflexivity |]. split; [reflexivity |]. split; [exact Hin |].
  exists tk. split; [exact Htk | exact Hc].
Defined.

Lemma strategy_ignores_id_email_witness :
  let l := Sample.lead_of (VStr "Medium") (VStr "Login page fails") in
  let l' := {| id_ := VStr "8"; name := VStr "Ana"; email := VNone;
               company := VStr "Acme"; interest := VStr "Medium";
               ticket := VStr "Login page fails" |} in
  name l = name l' /\ company l = company l' /\
  interest l = interest l' /\ ticket l = ticket l' /\
  strategy Sample.online (Sample.world5 9) l Sample.s0
  = strategy Sample.online (Sample.world5 9) l' Sample.s0.
Proof.
  intros l l'. repeat (split; [reflexivity |]).
  exact (proj1 (strategy_ignores_id_email Sample.online (Sample.world5 9)
                  l l' Sample.s0 eq_refl eq_refl eq_refl eq_refl)).
Defined.


(** ** What a run costs and reports *)

Section MoreRun.

Context {float : Type} {R : Runtime float}.
Variable cfg : config.
Variable w : world float.

Lemma per_lead_ticks rows s its s' :
  per_lead cfg w rows s its s' ->
  ticks s' = ticks s + List.length rows + count_if is_ok its.
Proof.
  induction 1 as [s | r rows s c f ts s1 its s' Hs _ IH
                  | r rows s e s1 its s' Hs _ IH].
  - simpl. lia.
  - apply strategy_cost in Hs as [Ht _]. simpl in *. lia.
  - apply strategy_cost in Hs as [Ht _]. simpl in *. lia.
Qed.

Lemma per_lead_calls rows s its s' :
  per_lead cfg w rows s its s' ->
  if USE_OPENAI cfg
  then calls s + List.length rows <= calls s' <= calls s + 3 * List.length rows
  else calls s' = calls s /\ count_if is_err its = 0.
Proof.
  induction 1 as [s | r rows s c f ts s1 its s' Hs _ IH
                  | r rows s e s1 its s' Hs _ IH].
  - destruct (USE_OPENAI cfg); simpl; lia.
  - apply strategy_cost in Hs as [_ Hc].
    destruct (USE_OPENAI cfg); simpl in *; [lia |].
    destruct Hc as [Hc _]. lia.
  - apply strategy_cost in Hs as [_ Hc].
    destruct (USE_OPENAI cfg); simpl in *; [lia |].
    destruct Hc as [_ [out Hout]]. discriminate.
Qed.

Lemma loop_app (rows1 rows2 : list row) (v : locals float) (s : st) :
  loop cfg w (rows1 ++ rows2) v s
  = let (v1, s1) := loop cfg w rows1 v s in loop cfg w rows2 v1 s1.
Proof.
  revert v s. induction rows1 as [|r rows1 IH]; intros v s; simpl.
  - reflexivity.
  - destruct (process_row cfg w r v s) as [v' s']. apply IH.
Qed.


(** X10: a run makes no client call offline; in the model-backed mode it
    makes at least one and at most three calls per row, whatever fails. *)
Theorem run_agent_client_calls (req : RunRequest) (rows : list row) (s : st) :
  fs w (csv_path req) = Csv rows ->
  exists sm its s',
    run_agent cfg w req s = (Body sm its, s') /\
    if USE_OPENAI cfg
    then calls s + List.length rows <= calls s' <= calls s + 3 * List.length rows
    else calls s' = calls s.
Proof.
  intros H.
  destruct (run_agent_csv cfg w req rows s H)
    as (sm & its & s' & Hrun & Hrel & _).
  exists sm, its, (ticked s'). split; [exact Hrun |].
  apply per_lead_calls in Hrel.
  destruct (USE_OPENAI cfg); simpl in *; lia.
Qed.

(** X11: an offline run never records an error: every row is processed,
    whatever its cells hold. *)
Theorem run_agent_offline_never_fails (req : RunRequest) (rows : list row) (s : st) :
  USE_OPENAI cfg = false ->
  fs w (csv_path req) = Csv rows ->
  exists sm its s',
    run_agent cfg w req s = (Body sm its, s') /\
    errors sm = 0 /\ processed sm = List.length rows /\
    forallb is_ok its = true.
Proof.
  intros Hoff H.
  destruct (run_agent_csv cfg w req rows s H)
    as (sm & its & s' & Hrun & Hrel & Hp & He & _).
  exists sm, its, (ticked s'). split; [exact Hrun |].
  pose proof (per_lead_calls _ _ _ _ Hrel) as Hc. rewrite Hoff in Hc.
  destruct Hc as [_ Hc].
  pose proof (count_ok_err its) as Hcnt.
  pose proof (per_lead_length cfg w _ _ _ _ Hrel) as Hlen.
  split; [lia |]. split; [lia |].
  apply forallb_forall. intros it Hin.
  destruct (per_lead_offline cfg w _ _ _ _ Hoff Hrel it Hin) as (l & lat & ->).
  reflexivity.
Qed.

(** X12: a run reads the clock once at the start, once at the end, once
    per row, and once more per row that is processed without error. *)
Theorem run_agent_clock_reads (req : RunRequest) (rows : list row) (s : st) :
  fs w (csv_path req) = Csv rows ->
  exists sm its s',
    run_agent cfg w req s = (Body sm its, s') /\
    ticks s' = ticks s + 2 + List.length rows + processed sm.
Proof.
  intros H.
  destruct (run_agent_csv cfg w req rows s H)
    as (sm & its & s' & Hrun & Hrel & Hp & _).
  exists sm, its, (ticked s'). split; [exact Hrun |].
  apply per_lead_ticks in Hrel. simpl in *. lia.
Qed.


(** X14: rows are processed one after the other: the loop over two row
    lists in a row is the loop over the first followed by the loop over the
    second from the variables and state the first one left, so the records
    of the first rows do not depend on the rows that follow. *)
Theorem loop_sequential (rows1 rows2 : list row) (v : locals float) (s : st) :
  loop cfg w (rows1 ++ rows2) v s
  = loop cfg w rows2 (fst (loop cfg w rows1 v s)) (snd (loop cfg w rows1 v s)) /\
  exists more,
    results (fst (loop cfg w (rows1 ++ rows2) v s))
    = results (fst (loop cfg w rows1 v s)) ++ more /\
    List.length more = List.length rows2.
Proof.
  rewrite loop_app.
  destruct (loop cfg w rows1 v s) as [v1 s1]. cbn [fst snd].
  split; [reflexivity |].
  destruct (loop_spec cfg w rows2 v1 s1) as (its & s' & Hrel & _ & Hres & _).
  exists its. split; [exact Hres |].
  eapply per_lead_length. exact Hrel.
Qed.

End MoreRun.

Lemma run_agent_client_calls_witness :
  fs (Sample.world5 4) (csv_path default_request) = Csv Sample.five_rows /\
  exists sm its s',
    run_agent (R := Exact.runtime) Sample.online (Sample.world5 4)
      default_request Sample.s0 = (Body sm its, s') /\
    0 + 5 <= calls s' <= 0 + 3 * 5.
Proof.
  split; [reflexivity |].
  exact (run_agent_client_calls (R := Exact.runtime) Sample.online
           (Sample.world5 4) default_request Sample.five_rows Sample.s0 eq_refl).
Defined.

Lemma run_agent_offline_never_fails_witness :
  USE_OPENAI Sample.offline = false /\
  fs (Sample.world5 0) (csv_path default_request) = Csv Sample.five_rows /\
  exists sm its s',
    run_agent (R := Exact.runtime) Sample.offline (Sample.world5 0)
      default_request Sample.s0 = (Body sm its, s') /\
    errors sm = 0 /\ processed sm = 5 /\ forallb is_ok its = true.
Proof.
  split; [reflexivity |]. split; [reflexivity |].
  exact (run_agent_offline_never_fails (R := Exact.runtime) Sample.offline
           (Sample.world5 0) default_request Sample.five_rows Sample.s0
           eq_refl eq_refl).
Defined.

Lemma run_agent_clock_reads_witness :
  fs (Sample.world5 4) (csv_path default_request) = Csv Sample.five_rows /\
  exists sm its s',
    run_agent (R := Exact.runtime) Sample.online (Sample.world5 4)
      default_request Sample.s0 = (Body sm its, s') /\
    ticks s' = 0 + 2 + 5 + processed sm.
Proof.
  split; [reflexivity |].
  exact (run_agent_clock_reads (R := Exact.runtime) Sample.online
           (Sample.world5 4) default_request Sample.five_rows Sample.s0 eq_refl).
Defined.

